(** * CCTV GIS WebRTC backend: the catalog read path and the telemetry
      write path of [starter-kit/index.js], embedded and verified.

    The embedding follows the source handler by handler.  JavaScript
    strings are byte strings (UTF-8).  The numbers of a bbox are [number]
    (NaN, the two infinities, or the exact rational a literal denotes:
    which strings convert to NaN is as in JavaScript, the rounding of the
    value to binary64 is not modelled); the numbers of a request body are
    binary64 floats.  The Prometheus instruments are finite maps from
    label tuples to values, and the handlers are state-passing functions
    that return the HTTP response together with the new state (or with
    the log of the statements sent to the store). *)

From Stdlib Require Import ZArith QArith String Ascii List Bool Lia Floats.
From stdpp Require Import gmap strings list.
Import ListNotations.

Local Open Scope string_scope.
Local Open Scope Z_scope.

(** ** JavaScript strings *)

Module JsString.

Definition code (a : ascii) : N := N_of_ascii a.

(** One-byte members of WhiteSpace and LineTerminator: TAB, LF, VT, FF,
    CR and SP. *)
Definition ws1 (a : ascii) : bool :=
  let n := code a in
  ((9 <=? n) && (n <=? 13))%N || (n =? 32)%N.

(** U+00A0, encoded on two bytes. *)
Definition ws2 (a b : ascii) : bool :=
  ((code a =? 194) && (code b =? 160))%N.

(** The three-byte members: U+1680, U+2000..U+200A, U+2028, U+2029,
    U+202F, U+205F, U+3000 and U+FEFF. *)
Definition ws3 (a b c : ascii) : bool :=
  let x := code a in let y := code b in let z := code c in
  ((x =? 225) && (y =? 154) && (z =? 128))%N
  || ((x =? 226) && (y =? 128)
      && (((128 <=? z) && (z <=? 138)) || (z =? 168) || (z =? 169) || (z =? 175)))%N
  || ((x =? 226) && (y =? 129) && (z =? 159))%N
  || ((x =? 227) && (y =? 128) && (z =? 128))%N
  || ((x =? 239) && (y =? 187) && (z =? 191))%N.

(** Drops the white space a string starts with. *)
Fixpoint skip_ws (s : string) : string :=
  match s with
  | EmptyString => s
  | String a r =>
      if ws1 a then skip_ws r
      else match r with
           | EmptyString => s
           | String b r2 =>
               if ws2 a b then skip_ws r2
               else match r2 with
                    | EmptyString => s
                    | String c r3 => if ws3 a b c then skip_ws r3 else s
                    end
           end
  end.

Definition is_empty (s : string) : bool :=
  match s with EmptyString => true | _ => false end.

Definition all_ws (s : string) : bool := is_empty (skip_ws s).

(** Cuts the string at the first position from which only white space
    follows. *)
Fixpoint drop_trailing_ws (s : string) : string :=
  match s with
  | EmptyString => EmptyString
  | String a r => if all_ws s then EmptyString else String a (drop_trailing_ws r)
  end.

(** [String.prototype.trim]. *)
Definition trim (s : string) : string := drop_trailing_ws (skip_ws s).

(** [String.prototype.split] with a one-character separator: the empty
    string splits into one empty component. *)
Fixpoint split (sep : ascii) (s : string) : list string :=
  match s with
  | EmptyString => [EmptyString]
  | String c r =>
      if Ascii.eqb c sep then EmptyString :: split sep r
      else match split sep r with
           | h :: t => String c h :: t
           | [] => [String c EmptyString]
           end
  end.

(** A string is truthy when it is not empty. *)
Definition truthy (s : string) : bool := negb (is_empty s).

(** Truthiness of a value that may be [undefined]. *)
Definition truthy_opt (o : option string) : bool :=
  match o with Some s => truthy s | None => false end.

End JsString.

(** ** JavaScript numbers *)

Inductive number : Type :=
| NaN
| NegInf
| Fin (q : Q)
| PosInf.

Module JsNumber.
Import JsString.

Definition isNaN (n : number) : bool :=
  match n with NaN => true | _ => false end.

Definition neg (n : number) : number :=
  match n with
  | NaN => NaN
  | NegInf => PosInf
  | PosInf => NegInf
  | Fin q => Fin (Qred (- q))
  end.

(** The value of a digit in the given base, if it is one. *)
Definition digit (base : Z) (a : ascii) : option Z :=
  let n := Z.of_N (code a) in
  let d := if (48 <=? n) && (n <=? 57) then Some (n - 48)
           else if (97 <=? n) && (n <=? 102) then Some (n - 87)
           else if (65 <=? n) && (n <=? 70) then Some (n - 55)
           else None in
  match d with
  | Some v => if v <? base then Some v else None
  | None => None
  end.

(** Reads the longest run of digits: its value, its length and the rest. *)
Fixpoint take_digits (base : Z) (s : string) (acc : Z) (cnt : nat)
  : Z * nat * string :=
  match s with
  | EmptyString => (acc, cnt, s)
  | String a r =>
      match digit base a with
      | Some d => take_digits base r (acc * base + d) (S cnt)
      | None => (acc, cnt, s)
      end
  end.

(** [m * 10^x] as a reduced fraction. *)
Definition scale10 (m x : Z) : Q :=
  if 0 <=? x then Qmake (m * 10 ^ x) 1
  else Qred (Qmake m (Z.to_pos (10 ^ (- x)))).

(** ExponentPart: [e] or [E], an optional sign, at least one digit.  When
    there is none the exponent is 0 and nothing is consumed. *)
Definition exponent_part (s : string) : Z * string :=
  match s with
  | String a r =>
      if (code a =? 101)%N || (code a =? 69)%N then
        let '(sgn, r1) :=
          match r with
          | String b r' =>
              if (code b =? 43)%N then (1, r')
              else if (code b =? 45)%N then (-1, r')
              else (1, r)
          | EmptyString => (1, r)
          end in
        let '(e, cnt, rest) := take_digits 10 r1 0 0 in
        match cnt with
        | O => (0, s)
        | S _ => (sgn * e, rest)
        end
      else (0, s)
  | EmptyString => (0, s)
  end.

(** StrUnsignedDecimalLiteral: [Infinity], or digits with an optional
    fraction and an optional exponent (one digit at least before or
    after the dot). *)
Definition unsigned_decimal (s : string) : option (number * string) :=
  if String.prefix "Infinity" s
  then Some (PosInf, String.substring 8 (String.length s - 8) s)
  else
    let '(i, ci, r1) := take_digits 10 s 0 0 in
    let '(m, cf, r2) :=
      match r1 with
      | String a r =>
          if (code a =? 46)%N then
            let '(m, c, r') := take_digits 10 r i 0 in
            match ci, c with
            | O, O => (i, O, r1)
            | _, _ => (m, S c, r')
            end
          else (i, O, r1)
      | EmptyString => (i, O, r1)
      end in
    match ci, cf with
    | O, O => None
    | _, _ =>
        let '(e, r3) := exponent_part r2 in
        Some (Fin (scale10 m (e - Z.of_nat (Nat.pred cf))), r3)
    end.

(** NonDecimalIntegerLiteral: [0x], [0o] or [0b] (either case) followed by
    at least one digit of that base; no sign. *)
Definition non_decimal (s : string) : option (number * string) :=
  match s with
  | String z (String p r) =>
      if (code z =? 48)%N then
        let base :=
          if (code p =? 120)%N || (code p =? 88)%N then Some 16
          else if (code p =? 111)%N || (code p =? 79)%N then Some 8
          else if (code p =? 98)%N || (code p =? 66)%N then Some 2
          else None in
        match base with
        | Some b =>
            let '(v, cnt, rest) := take_digits b r 0 0 in
            match cnt with
            | O => None
            | S _ => Some (Fin (Qmake v 1), rest)
            end
        | None => None
        end
      else None
  | _ => None
  end.

(** StrNumericLiteral. *)
Definition numeric_literal (s : string) : option (number * string) :=
  match non_decimal s with
  | Some r => Some r
  | None =>
      match s with
      | String a r =>
          if (code a =? 43)%N then unsigned_decimal r
          else if (code a =? 45)%N then
            match unsigned_decimal r with
            | Some (v, rest) => Some (neg v, rest)
            | None => None
            end
          else unsigned_decimal s
      | EmptyString => None
      end
  end.

(** [Number(s)] on a string (StringToNumber): white space around one
    numeric literal; only white space is 0; anything else is NaN. *)
Definition Number (s : string) : number :=
  let t := skip_ws s in
  if is_empty t then Fin 0
  else match numeric_literal t with
       | Some (v, rest) => if all_ws rest then v else NaN
       | None => NaN
       end.

End JsNumber.

(** ** The catalog and the store

    [schema.sql]: the [cameras] table.  Columns without NOT NULL are
    nullable; [geom] is a GEOGRAPHY(POINT), always present. *)

Module Camera.

Record t : Type := mk {
  id : string;
  name : string;
  role : string;
  stream_url : string;
  is_active : option bool;
  video_profile : option string;
  width : option Z;
  height : option Z;
  fps : option Z;
  audio_enabled : option bool;
  last_status : option string;
  last_checked : option string;
  lng : Q;
  lat : Q
}.

End Camera.

Module Sql.
Import JsNumber.

Inductive value : Type :=
| Null
| Text (s : string)
| Int (z : Z)
| Boolean (b : bool)
| Float (n : number)
| Geography (x y : Q)     (* a point of type geography *)
| Geometry (x y : Q).     (* a point of type geometry, after a cast *)

(** The column types of [schema.sql]. *)
Inductive type : Type :=
| TEXT
| INT
| BOOLEAN
| TIMESTAMPTZ
| GEOGRAPHY
| GEOMETRY.

Definition schema : list (string * type) :=
  [ ("id", TEXT); ("name", TEXT); ("role", TEXT); ("stream_url", TEXT);
    ("is_active", BOOLEAN); ("video_profile", TEXT);
    ("width", INT); ("height", INT); ("fps", INT);
    ("audio_enabled", BOOLEAN); ("last_status", TEXT);
    ("last_checked", TIMESTAMPTZ); ("geom", GEOGRAPHY) ].

Fixpoint column_type_in (sch : list (string * type)) (col : string)
  : option type :=
  match sch with
  | [] => None
  | (k, t) :: sch' => if String.eqb k col then Some t else column_type_in sch' col
  end.

Definition column_type (col : string) : option type :=
  column_type_in schema col.

Definition nullable {A} (f : A -> value) (o : option A) : value :=
  match o with Some a => f a | None => Null end.

(** A result row, and a stored row: column name and value, in order. *)
Definition row : Type := list (string * value).

Definition table_row (c : Camera.t) : row :=
  [ ("id", Text (Camera.id c));
    ("name", Text (Camera.name c));
    ("role", Text (Camera.role c));
    ("stream_url", Text (Camera.stream_url c));
    ("is_active", nullable Boolean (Camera.is_active c));
    ("video_profile", nullable Text (Camera.video_profile c));
    ("width", nullable Int (Camera.width c));
    ("height", nullable Int (Camera.height c));
    ("fps", nullable Int (Camera.fps c));
    ("audio_enabled", nullable Boolean (Camera.audio_enabled c));
    ("last_status", nullable Text (Camera.last_status c));
    ("last_checked", nullable Text (Camera.last_checked c));
    ("geom", Geography (Camera.lng c) (Camera.lat c)) ].

Fixpoint field (col : string) (r : row) : option value :=
  match r with
  | [] => None
  | (k, v) :: r' => if String.eqb k col then Some v else field col r'
  end.

(** The explicit cast [v::geometry]. *)
Definition cast_geometry (v : value) : option value :=
  match v with
  | Geography x y | Geometry x y => Some (Geometry x y)
  | _ => None
  end.

(** The items of the two select lists: a column, or a coordinate of
    [geom] under an alias ([ST_X(geom::geometry) AS lng]). *)
Inductive select_item : Type :=
| Column (col : string)
| ST_X_geom (alias : string)
| ST_Y_geom (alias : string).

(** The conditions the two handlers put after WHERE; a number stands for
    the placeholder of that rank.
    - [ST_Contains_Envelope a b c d]:
      [ST_Contains(ST_MakeEnvelope($a, $b, $c, $d, 4326), geom)]
    - [Column_eq col k]: [col = $k] *)
Inductive condition : Type :=
| ST_Contains_Envelope (a b c d : nat)
| Column_eq (col : string) (k : nat).

Record statement : Type := {
  select : list select_item;
  where_ : list condition;   (* joined by AND *)
  params : list value
}.

(** [$k] is the k-th parameter, counted from 1. *)
Definition placeholder (ps : list value) (k : nat) : option value :=
  match k with
  | O => None
  | S i => nth_error ps i
  end.

(** Whether the database accepts a condition at all.  [ST_Contains] is
    declared on two geometries only, and a geography converts to a
    geometry by an explicit cast only (which is why the select lists
    write [geom::geometry]); its second operand here is the bare column
    [geom], so the call resolves only if that column is a geometry.  A
    comparison with a placeholder needs the column to exist. *)
Definition resolves (w : condition) : bool :=
  match w with
  | ST_Contains_Envelope _ _ _ _ =>
      match column_type "geom" with
      | Some GEOMETRY => true
      | _ => false
      end
  | Column_eq col _ =>
      match column_type col with
      | Some _ => true
      | None => false
      end
  end.

(** The truth of one condition on one stored row; [None] when it cannot
    be evaluated (unbound placeholder, unknown column, operand of the wrong
    type).  [ST_Contains] is given the bare column [geom], whose stored
    values are geographies, for which it has no form: it cannot be
    evaluated on any stored row. *)
Definition holds (ps : list value) (r : row) (w : condition) : option bool :=
  match w with
  | ST_Contains_Envelope _ _ _ _ => None
  | Column_eq col k =>
      match field col r, placeholder ps k with
      | Some (Text s), Some (Text p) => Some (String.eqb s p)
      | _, _ => None
      end
  end.

Fixpoint holds_all (ps : list value) (r : row) (ws : list condition)
  : option bool :=
  match ws with
  | [] => Some true
  | w :: ws' =>
      match holds ps r w, holds_all ps r ws' with
      | Some b, Some b' => Some (b && b')
      | _, _ => None
      end
  end.

Definition project_item (r : row) (it : select_item) : option (string * value) :=
  match it with
  | Column col =>
      match field col r with Some v => Some (col, v) | None => None end
  | ST_X_geom alias =>
      match field "geom" r with
      | Some g =>
          match cast_geometry g with
          | Some (Geometry x _) => Some (alias, Float (Fin x))
          | _ => None
          end
      | None => None
      end
  | ST_Y_geom alias =>
      match field "geom" r with
      | Some g =>
          match cast_geometry g with
          | Some (Geometry _ y) => Some (alias, Float (Fin y))
          | _ => None
          end
      | None => None
      end
  end.

Fixpoint project (r : row) (its : list select_item) : option row :=
  match its with
  | [] => Some []
  | it :: its' =>
      match project_item r it, project r its' with
      | Some kv, Some rest => Some (kv :: rest)
      | _, _ => None
      end
  end.

(** The rows a statement selects, one stored row after the other. *)
Fixpoint select_rows (st : statement) (table : list row) : option (list row) :=
  match table with
  | [] => Some []
  | r :: table' =>
      match holds_all (params st) r (where_ st), select_rows st table' with
      | Some true, Some rest =>
          match project r (select st) with
          | Some out => Some (out :: rest)
          | None => None
          end
      | Some false, Some rest => Some rest
      | _, _ => None
      end
  end.

(** [SELECT ... FROM cameras WHERE ...]: a statement with a condition
    that does not resolve is refused, whatever the table holds. *)
Definition run (st : statement) (table : list row) : option (list row) :=
  if forallb resolves (where_ st) then select_rows st table else None.

End Sql.

(** The store behind [pool]: the rows of [cameras], and whether the
    database answers at all. *)
Record Store : Type := {
  cameras : list Camera.t;
  reachable : bool
}.

(** [pool.query(text, params)]: [None] stands for a rejected promise. *)
Definition pool_query (db : Store) (st : Sql.statement) : option (list Sql.row) :=
  if reachable db then Sql.run st (map Sql.table_row (cameras db)) else None.

(** ** Responses *)

Inductive payload : Type :=
| Rows (rows : list Sql.row)      (* res.json(rows) *)
| Row (r : Sql.row)               (* res.json(rows[0]) *)
| Error (message : string)        (* res.json({ error: message }) *)
| Empty                           (* res.send() *)
| Uncaught.                       (* the page of Express's own error handler *)

Record response : Type := { status : Z; body : payload }.

Definition internal_error : response :=
  {| status := 500; body := Error "internal error" |}.

(** [res.json(rows)], with the default status. *)
Definition ok (rows : list Sql.row) : response :=
  {| status := 200; body := Rows rows |}.

(** ** GET /api/cameras

    [req.query.bbox] and [req.query.role] are strings when present; a
    repeated or bracketed parameter, which Express parses to an array or an
    object, is outside the model. *)

Module CameraList.
Import JsString JsNumber.

Definition select_list : list Sql.select_item :=
  [ Sql.Column "id"; Sql.Column "name"; Sql.Column "role";
    Sql.Column "width"; Sql.Column "height"; Sql.Column "fps";
    Sql.Column "video_profile"; Sql.Column "audio_enabled";
    Sql.Column "last_status"; Sql.Column "last_checked";
    Sql.ST_X_geom "lng"; Sql.ST_Y_geom "lat" ].

Definition bad_bbox : response :=
  {| status := 400;
     body := Error "bbox must be four numeric values: minLng,minLat,maxLng,maxLat" |}.

(** [bbox.split(',').map(Number)] *)
Definition parts_of (bbox : string) : list number :=
  map Number (split "," bbox).

(** The [if (bbox)] block: [None] is the early 400 return, otherwise the
    parameters and conditions collected so far. *)
Definition bbox_clause (bbox : option string)
  : option (list Sql.value * list Sql.condition) :=
  match bbox with
  | Some b =>
      if truthy b then
        let parts := parts_of b in
        if negb (List.length parts =? 4)%nat || existsb isNaN parts then None
        else
          match parts with
          | [minLng; minLat; maxLng; maxLat] =>
              Some ([Sql.Float minLng; Sql.Float minLat;
                     Sql.Float maxLng; Sql.Float maxLat],
                    [Sql.ST_Contains_Envelope 1 2 3 4])
          | _ => None
          end
      else Some ([], [])
  | None => Some ([], [])
  end.

(** The [if (role)] block. *)
Definition role_clause (role : option string)
    (acc : list Sql.value * list Sql.condition)
  : list Sql.value * list Sql.condition :=
  let '(params, whereClauses) := acc in
  match role with
  | Some r =>
      if truthy r then
        let params' := (params ++ [Sql.Text r])%list in
        (params', (whereClauses ++ [Sql.Column_eq "role" (List.length params')])%list)
      else acc
  | None => acc
  end.

(** The handler: the response, and the statements sent to the store. *)
Definition handler (db : Store) (bbox role : option string)
  : response * list Sql.statement :=
  match bbox_clause bbox with
  | None => (bad_bbox, [])
  | Some acc =>
      let '(params, whereClauses) := role_clause role acc in
      let query := {| Sql.select := select_list;
                      Sql.where_ := whereClauses;
                      Sql.params := params |} in
      match pool_query db query with
      | Some rows => (ok rows, [query])
      | None => (internal_error, [query])
      end
  end.

(** The statement of the list form with the given conditions and
    parameters. *)
Definition listing (ws : list Sql.condition) (ps : list Sql.value)
  : Sql.statement :=
  {| Sql.select := select_list; Sql.where_ := ws; Sql.params := ps |}.

End CameraList.

(** ** GET /api/cameras/:id *)

Module CameraById.

Definition select_list : list Sql.select_item :=
  [ Sql.Column "id"; Sql.Column "name"; Sql.Column "role";
    Sql.Column "stream_url";
    Sql.Column "width"; Sql.Column "height"; Sql.Column "fps";
    Sql.Column "video_profile"; Sql.Column "audio_enabled";
    Sql.Column "last_status"; Sql.Column "last_checked";
    Sql.ST_X_geom "lng"; Sql.ST_Y_geom "lat" ].

Definition not_found : response :=
  {| status := 404; body := Error "camera not found" |}.

Definition handler (db : Store) (id : string)
  : response * list Sql.statement :=
  let query := {| Sql.select := select_list;
                  Sql.where_ := [Sql.Column_eq "id" 1];
                  Sql.params := [Sql.Text id] |} in
  match pool_query db query with
  | Some [] => (not_found, [query])
  | Some (r :: _) => ({| status := 200; body := Row r |}, [query])
  | None => (internal_error, [query])
  end.

End CameraById.

(** ** Telemetry: requests, client context, instruments *)

(** [req.body.camera_id], a JSON value or [undefined], seen through the
    two things that are done with it: the test [!camera_id] of the
    handlers, and the conversion to text by which the registry files the
    series of a label value (a series is looked up under the text of its
    label values, so [1] and ["1"] name the same series).  The conversion
    throws for an object whose [toString] is not a function, as in
    [{"toString": 1}]: then there is no text. *)
Record id_value : Type := {
  is_truthy : bool;
  as_label : option string
}.

Module Id.

(** A JSON string: truthy unless empty, and its own text. *)
Definition of_string (s : string) : id_value :=
  {| is_truthy := JsString.truthy s; as_label := Some s |}.

(** The field is missing. *)
Definition undefined : id_value :=
  {| is_truthy := false; as_label := Some "undefined" |}.

Definition null : id_value :=
  {| is_truthy := false; as_label := Some "null" |}.

Definition of_bool (b : bool) : id_value :=
  {| is_truthy := b; as_label := Some (if b then "true" else "false") |}.

(** The number 0, the one falsy integer. *)
Definition zero : id_value := {| is_truthy := false; as_label := Some "0" |}.

(** An array of strings: always truthy; its text is the elements joined by
    commas, so the text of the empty array is empty. *)
Definition of_strings (l : list string) : id_value :=
  {| is_truthy := true; as_label := Some (String.concat "," l) |}.

(** An object with the inherited [toString]. *)
Definition object : id_value :=
  {| is_truthy := true; as_label := Some "[object Object]" |}.

(** An object with a [toString] of its own, which in JSON is never a
    function. *)
Definition unprintable : id_value := {| is_truthy := true; as_label := None |}.

End Id.

(** [req.body.seconds]: [undefined], or a JSON value.  A JSON number is a
    binary64 float (a literal too large for one is read as an infinity);
    [Other] is an array or an object. *)
Inductive field_value : Type :=
| Absent
| Null
| Flag (b : bool)
| Num (x : float)
| Str (s : string)
| Other.

(** The two fields the handlers read in the body. *)
Record body_fields : Type := {
  camera_id : id_value;              (* req.body.camera_id *)
  seconds : field_value              (* req.body.seconds *)
}.

(** The parts of a request the telemetry handlers read.  [req_body] is
    [req.body]: the parsed JSON, or [None] when nothing set it (whether a
    request without a JSON body has an empty object or nothing there
    depends on the version of Express). *)
Record request : Type := {
  x_forwarded_for : option string;   (* req.headers['x-forwarded-for'] *)
  user_agent : option string;        (* req.headers['user-agent'] *)
  remoteAddress : option string;     (* req.socket?.remoteAddress *)
  req_body : option body_fields      (* req.body *)
}.


(** The outcome of [geoReader.country(ip)]: it throws, or it answers with
    [response?.country?.isoCode], which may be undefined. *)
Inductive geo_answer : Type :=
| Throws
| IsoCode (code : option string).

(** What a series of the seconds counter holds: a number; [false], left by
    a first observation of [false]; or a string, once the empty string has
    been added to it (its text is not followed). *)
Inductive cell : Type :=
| Numeric (x : float)
| Holds_false
| Textual.

(** The three instruments, keyed by their label tuples: (camera_id,
    country, browser, os) for the start counter, (camera_id, country) for
    the other two.  A series is created at its first observation.  The
    start counter and the gauge only ever move by 1 from 0, so their
    values are integers, and a series never observed reads 0. *)
Record metrics : Type := {
  viewStartCounter : gmap (string * string * string * string) Z;
  viewersGauge : gmap (string * string) Z;
  viewSecondsCounter : gmap (string * string) cell
}.

Definition no_metrics : metrics :=
  {| viewStartCounter := ∅; viewersGauge := ∅; viewSecondsCounter := ∅ |}.

Module Prom.

Definition read `{Countable K} (m : gmap K Z) (k : K) : Z :=
  default 0 (m !! k).

(** [Counter.inc(labels)] and [Gauge.inc(labels)]: add 1. *)
Definition inc `{Countable K} (m : gmap K Z) (k : K) : gmap K Z :=
  <[k := read m k + 1]> m.

(** [Gauge.dec(labels)]: subtract 1, whatever the current value. *)
Definition dec `{Countable K} (m : gmap K Z) (k : K) : gmap K Z :=
  <[k := read m k - 1]> m.

(** Truthiness of a number: neither a zero nor NaN. *)
Definition truthy_number (x : float) : bool :=
  negb (PrimFloat.eqb x 0 || PrimFloat.is_nan x).

(** What [Counter.inc] hands on to be added. *)
Inductive addend : Type :=
| Add (x : float)
| Add_false
| Add_empty_string.

(** The checks of [Counter.inc(labels, value)]: it throws ([None]) on a
    truthy value that is not a finite number ([value && !Number.isFinite
    (value)]) and on a truthy negative one ([value && value < 0]); [null]
    and [undefined] become 1; any other value is handed on as it is. *)
Definition checked (value : field_value) : option addend :=
  match value with
  | Absent | Null => Some (Add 1)
  | Flag b => if b then None else Some Add_false
  | Num x =>
      if truthy_number x && (negb (PrimFloat.is_finite x) || PrimFloat.ltb x 0)
      then None
      else Some (Add x)
  | Str s => if JsString.truthy s then None else Some Add_empty_string
  | Other => None
  end.

(** [entry.value += value]: with a string on either side the result is a
    string; otherwise the sum of the two as numbers, [false] counting
    as 0. *)
Definition plus (c : cell) (a : addend) : cell :=
  match c, a with
  | Textual, _ => Textual
  | _, Add_empty_string => Textual
  | Numeric old, Add x => Numeric (old + x)
  | Numeric old, Add_false => Numeric (old + 0)
  | Holds_false, Add x => Numeric (0 + x)
  | Holds_false, Add_false => Numeric (0 + 0)
  end.

(** The first observation of a series stores the value itself. *)
Definition first (a : addend) : cell :=
  match a with
  | Add x => Numeric x
  | Add_false => Holds_false
  | Add_empty_string => Textual
  end.

(** [Counter.inc(labels, value)]: [None] when it throws, which leaves the
    counter as it was. *)
Definition inc_by `{Countable K} (m : gmap K cell) (k : K) (value : field_value)
  : option (gmap K cell) :=
  match checked value with
  | Some a =>
      Some (<[k := match m !! k with
                   | Some c => plus c a
                   | None => first a
                   end]> m)
  | None => None
  end.

End Prom.

Definition no_content : response := {| status := 204; body := Empty |}.

Definition camera_id_required : response :=
  {| status := 400; body := Error "camera_id is required" |}.

(** What Express answers when a handler throws. *)
Definition uncaught : response := {| status := 500; body := Uncaught |}.

Section Telemetry.
Import JsString.

(** The user-agent parser, [new UAParser(header).getResult()], seen
    through the two names the code reads: [browser.name] and [os.name],
    each possibly undefined. *)
Variable UAParser : option string -> option string * option string.

(** [geoReader]: absent until (and unless) the database has loaded. *)
Variable geoReader : option (string -> geo_answer).

Definition getClientIp (req : request) : string :=
  let direct := default "" (remoteAddress req) in
  match x_forwarded_for req with
  | Some xff =>
      if (0 <? String.length xff)%nat then
        match map trim (split "," xff) with
        | ip :: _ => ip
        | [] => direct
        end
      else direct
  | None => direct
  end.

Definition getCountry (ip : string) : string :=
  match geoReader with
  | Some reader =>
      if truthy ip then
        match reader ip with
        | IsoCode (Some c) => if truthy c then c else "ZZ"
        | IsoCode None => "ZZ"
        | Throws => "ZZ"
        end
      else "ZZ"
  | None => "ZZ"
  end.

Definition knownBrowsers : list string :=
  ["Chrome"; "Firefox"; "Safari"; "Edge"].

Definition knownOS : list string :=
  ["Windows"; "macOS"; "iOS"; "Android"; "Linux"].

(** [Array.prototype.includes] on strings. *)
Definition includes (l : list string) (s : string) : bool :=
  existsb (String.eqb s) l.

(** [name || 'Other'], then the allow-list. *)
Definition normalise (known : list string) (name : option string) : string :=
  let n := match name with
           | Some s => if truthy s then s else "Other"
           | None => "Other"
           end in
  if includes known n then n else "Other".

Definition parseUA (req : request) : string * string :=
  let ua := UAParser (user_agent req) in
  (normalise knownBrowsers (fst ua), normalise knownOS (snd ua)).

(** POST /view-start.  Destructuring [req.body] throws when there is
    none, and the first [inc] throws, before it changes anything, when
    [camera_id] has no text. *)
Definition view_start (req : request) (m : metrics) : response * metrics :=
  match req_body req with
  | None => (uncaught, m)
  | Some b =>
      if is_truthy (camera_id b) then
        let ip := getClientIp req in
        let country := getCountry ip in
        let '(browser, os) := parseUA req in
        match as_label (camera_id b) with
        | Some cid =>
            (no_content,
             {| viewStartCounter :=
                  Prom.inc (viewStartCounter m) (cid, country, browser, os);
                viewersGauge := Prom.inc (viewersGauge m) (cid, country);
                viewSecondsCounter := viewSecondsCounter m |})
        | None => (uncaught, m)
        end
      else (camera_id_required, m)
  end.

(** POST /heartbeat; [seconds = 10] applies when the field is undefined. *)
Definition heartbeat (req : request) (m : metrics) : response * metrics :=
  match req_body req with
  | None => (uncaught, m)
  | Some b =>
      let seconds := match seconds b with Absent => Num 10 | v => v end in
      if is_truthy (camera_id b) then
        let ip := getClientIp req in
        let country := getCountry ip in
        match as_label (camera_id b) with
        | Some cid =>
            match Prom.inc_by (viewSecondsCounter m) (cid, country) seconds with
            | Some c =>
                (no_content,
                 {| viewStartCounter := viewStartCounter m;
                    viewersGauge := viewersGauge m;
                    viewSecondsCounter := c |})
            | None => (uncaught, m)
            end
        | None => (uncaught, m)
        end
      else (camera_id_required, m)
  end.

(** POST /view-end *)
Definition view_end (req : request) (m : metrics) : response * metrics :=
  match req_body req with
  | None => (uncaught, m)
  | Some b =>
      if is_truthy (camera_id b) then
        let ip := getClientIp req in
        let country := getCountry ip in
        match as_label (camera_id b) with
        | Some cid =>
            (no_content,
             {| viewStartCounter := viewStartCounter m;
                viewersGauge := Prom.dec (viewersGauge m) (cid, country);
                viewSecondsCounter := viewSecondsCounter m |})
        | None => (uncaught, m)
        end
      else (camera_id_required, m)
  end.

(** A telemetry call, and a sequence of calls served one after the
    other ([geoReader] does not change during the sequence). *)
Inductive call : Type :=
| ViewStart (req : request)
| Heartbeat (req : request)
| ViewEnd (req : request).

Definition serve (c : call) (m : metrics) : response * metrics :=
  match c with
  | ViewStart req => view_start req m
  | Heartbeat req => heartbeat req m
  | ViewEnd req => view_end req m
  end.

Fixpoint run (cs : list call) (m : metrics) : metrics :=
  match cs with
  | [] => m
  | c :: cs' => run cs' (snd (serve c m))
  end.

(** The gauge series a call moves, with the direction: the label pair of
    an accepted view-start (+1) or view-end (-1). *)
Definition gauge_move (c : call) : option (string * string * Z) :=
  let accepted (req : request) (d : Z) :=
    match req_body req with
    | Some b =>
        if is_truthy (camera_id b) then
          match as_label (camera_id b) with
          | Some cid => Some (cid, getCountry (getClientIp req), d)
          | None => None
          end
        else None
    | None => None
    end in
  match c with
  | ViewStart req => accepted req 1
  | ViewEnd req => accepted req (-1)
  | Heartbeat _ => None
  end.

(** How many calls of the sequence are accepted view-starts
    ([d = 1]) or view-ends ([d = -1]) on the series [k]. *)
Fixpoint count_moves (d : Z) (k : string * string) (cs : list call) : Z :=
  match cs with
  | [] => 0
  | c :: cs' =>
      (match gauge_move c with
       | Some (cid, country, d') =>
           if decide ((cid, country) = k) then if d' =? d then 1 else 0 else 0
       | None => 0
       end) + count_moves d k cs'
  end.

End Telemetry.

(** ** Rows, viewports and sample data used in the statements *)

Module Rows.

(** The row of the list form for one camera. *)
Definition summary (c : Camera.t) : Sql.row :=
  [ ("id", Sql.Text (Camera.id c));
    ("name", Sql.Text (Camera.name c));
    ("role", Sql.Text (Camera.role c));
    ("width", Sql.nullable Sql.Int (Camera.width c));
    ("height", Sql.nullable Sql.Int (Camera.height c));
    ("fps", Sql.nullable Sql.Int (Camera.fps c));
    ("video_profile", Sql.nullable Sql.Text (Camera.video_profile c));
    ("audio_enabled", Sql.nullable Sql.Boolean (Camera.audio_enabled c));
    ("last_status", Sql.nullable Sql.Text (Camera.last_status c));
    ("last_checked", Sql.nullable Sql.Text (Camera.last_checked c));
    ("lng", Sql.Float (Fin (Camera.lng c)));
    ("lat", Sql.Float (Fin (Camera.lat c))) ].

(** The row of the single-camera form. *)
Definition detail (c : Camera.t) : Sql.row :=
  [ ("id", Sql.Text (Camera.id c));
    ("name", Sql.Text (Camera.name c));
    ("role", Sql.Text (Camera.role c));
    ("stream_url", Sql.Text (Camera.stream_url c));
    ("width", Sql.nullable Sql.Int (Camera.width c));
    ("height", Sql.nullable Sql.Int (Camera.height c));
    ("fps", Sql.nullable Sql.Int (Camera.fps c));
    ("video_profile", Sql.nullable Sql.Text (Camera.video_profile c));
    ("audio_enabled", Sql.nullable Sql.Boolean (Camera.audio_enabled c));
    ("last_status", Sql.nullable Sql.Text (Camera.last_status c));
    ("last_checked", Sql.nullable Sql.Text (Camera.last_checked c));
    ("lng", Sql.Float (Fin (Camera.lng c)));
    ("lat", Sql.Float (Fin (Camera.lat c))) ].

End Rows.

Module Viewport.

(** Four finite numbers, in the order of the query string. *)
Record t : Type := mk { minLng : Q; minLat : Q; maxLng : Q; maxLat : Q }.

Definition numbers (v : t) : list number :=
  [Fin (minLng v); Fin (minLat v); Fin (maxLng v); Fin (maxLat v)].

Definition valid (v : t) : Prop :=
  (minLng v <= maxLng v)%Q /\ (minLat v <= maxLat v)%Q.

(** The closed envelope: lower-left corner from the first two numbers,
    upper-right corner from the last two, boundary included. *)
Definition closed (v : t) (c : Camera.t) : Prop :=
  (minLng v <= Camera.lng c)%Q /\ (Camera.lng c <= maxLng v)%Q /\
  (minLat v <= Camera.lat c)%Q /\ (Camera.lat c <= maxLat v)%Q.

(** The interior of the envelope: the boundary left out. *)
Definition interior (v : t) (c : Camera.t) : Prop :=
  (minLng v < Camera.lng c)%Q /\ (Camera.lng c < maxLng v)%Q /\
  (minLat v < Camera.lat c)%Q /\ (Camera.lat c < maxLat v)%Q.

End Viewport.

Module Sample.

Definition camera (id role : string) (lng lat : Q) : Camera.t :=
  Camera.mk id id role ("rtsp://cameras.example/" ++ id)
    (Some true) (Some "H264 Main") (Some 640) (Some 480) (Some 15)
    (Some false) None None lng lat.

Definition cam1 : Camera.t := camera "cam1" "traffic" 10 20.
Definition cam2 : Camera.t := camera "cam2" "perimeter" 50 60.

(** A camera on the west edge of the viewport [0,0,20,30]. *)
Definition edge : Camera.t := camera "edge" "traffic" 0 10.

(** A camera whose role differs from "traffic" by case only. *)
Definition cam3 : Camera.t := camera "cam3" "Traffic" 10 20.

Definition db : Store := {| cameras := [cam1; cam2]; reachable := true |}.
Definition db_edge : Store := {| cameras := [cam1; edge]; reachable := true |}.
Definition db_roles : Store := {| cameras := [cam1; cam3]; reachable := true |}.

Definition box : Viewport.t := Viewport.mk 0 0 20 30.

(** A parser that knows nothing, and one that reports vendor names
    outside the allow-lists. *)
Definition ua_unknown (_ : option string) : option string * option string :=
  (None, None).
Definition ua_exotic (_ : option string) : option string * option string :=
  (Some "Opera", Some "Mac OS").
Definition ua_firefox (_ : option string) : option string * option string :=
  (Some "Firefox", Some "Linux").

(** A request from a direct peer, whose body has the given [camera_id] (a
    string, or no such field) and the given [seconds]. *)
Definition post (camera_id : option string) (seconds : field_value) : request :=
  {| x_forwarded_for := None;
     user_agent := Some "Mozilla/5.0";
     remoteAddress := Some "203.0.113.7";
     req_body := Some {| camera_id := match camera_id with
                                      | Some s => Id.of_string s
                                      | None => Id.undefined
                                      end;
                         seconds := seconds |} |}.

(** The same, with any value for [camera_id]. *)
Definition post_id (camera_id : id_value) (seconds : field_value) : request :=
  {| x_forwarded_for := None;
     user_agent := Some "Mozilla/5.0";
     remoteAddress := Some "203.0.113.7";
     req_body := Some {| camera_id := camera_id; seconds := seconds |} |}.

(** The registry in which the seconds series of ("cam1", "ZZ") holds the
    given number and nothing else was observed. *)
Definition seconds_at (x : float) : metrics :=
  {| viewStartCounter := ∅;
     viewersGauge := ∅;
     viewSecondsCounter := {[ ("cam1", "ZZ") := Numeric x ]} |}.

(** A request whose [req.body] is undefined. *)
Definition bodyless : request :=
  {| x_forwarded_for := None;
     user_agent := Some "Mozilla/5.0";
     remoteAddress := Some "203.0.113.7";
     req_body := None |}.

End Sample.

(** Every series of the start counter carries a browser and an OS label
    of the closed sets. *)
Definition closed_series (m : metrics) : Prop :=
  forall cid country browser os,
    is_Some (viewStartCounter m !! (cid, country, browser, os)) ->
    In browser ("Other" :: knownBrowsers) /\ In os ("Other" :: knownOS).

(** ** Accounting over a sequence of calls *)

(** Whether the character occurs in the string. *)
Fixpoint occurs (a : ascii) (s : string) : bool :=
  match s with
  | EmptyString => false
  | String c r => Ascii.eqb c a || occurs a r
  end.

(** The series of the start counter an accepted view-start moves. *)
Definition start_series
    (UAParser : option string -> option string * option string)
    (geoReader : option (string -> geo_answer)) (c : call)
  : option (string * string * string * string) :=
  match c with
  | ViewStart req =>
      match req_body req with
      | Some b =>
          if is_truthy (camera_id b) then
            match as_label (camera_id b) with
            | Some cid =>
                Some (cid, getCountry geoReader (getClientIp req),
                      fst (parseUA UAParser req), snd (parseUA UAParser req))
            | None => None
            end
          else None
      | None => None
      end
  | Heartbeat _ | ViewEnd _ => None
  end.

(** How many calls of the sequence are accepted view-starts on the series. *)
Fixpoint count_starts
    (UAParser : option string -> option string * option string)
    (geoReader : option (string -> geo_answer))
    (k : string * string * string * string) (cs : list call) : Z :=
  match cs with
  | [] => 0
  | c :: cs' =>
      (match start_series UAParser geoReader c with
       | Some k' => if decide (k' = k) then 1 else 0
       | None => 0
       end) + count_starts UAParser geoReader k cs'
  end.

(** Every series of the three instruments has a camera and a country label
    that satisfy [P]. *)
Definition labels_satisfy (P : string -> string -> Prop) (m : metrics) : Prop :=
  (forall cid country browser os,
      is_Some (viewStartCounter m !! (cid, country, browser, os)) -> P cid country)
  /\ (forall cid country,
         is_Some (viewersGauge m !! (cid, country)) -> P cid country)
  /\ (forall cid country,
         is_Some (viewSecondsCounter m !! (cid, country)) -> P cid country).


(** The request of a call. *)
Definition request_of (c : call) : request :=
  match c with
  | ViewStart req | Heartbeat req | ViewEnd req => req
  end.

(** The [camera_id] of the call, if the call has a body, is a string. *)
Definition string_id (c : call) : Prop :=
  forall b, req_body (request_of c) = Some b ->
            exists s, camera_id b = Id.of_string s.

(** What an accepted heartbeat hands on to the seconds counter, with the
    series it addresses. *)
Definition heartbeat_addend (geoReader : option (string -> geo_answer)) (c : call)
  : option (string * string * Prom.addend) :=
  match c with
  | Heartbeat req =>
      match req_body req with
      | Some b =>
          if is_truthy (camera_id b) then
            match as_label (camera_id b),
                  Prom.checked (match seconds b with Absent => Num 10 | v => v end)
            with
            | Some cid, Some a =>
                Some (cid, getCountry geoReader (getClientIp req), a)
            | _, _ => None
            end
          else None
      | None => None
      end
  | ViewStart _ | ViewEnd _ => None
  end.

(** What the accepted heartbeats of the sequence add to the series, in the
    order of the calls. *)
Fixpoint accepted_seconds (geoReader : option (string -> geo_answer))
    (k : string * string) (cs : list call) : list Prom.addend :=
  match cs with
  | [] => []
  | c :: cs' =>
      match heartbeat_addend geoReader c with
      | Some (cid, country, a) =>
          if decide ((cid, country) = k)
          then a :: accepted_seconds geoReader k cs'
          else accepted_seconds geoReader k cs'
      | None => accepted_seconds geoReader k cs'
      end
  end.

(** A series after the values have been added to it one after the other,
    the first of them creating the series when there is none. *)
Fixpoint added (cur : option cell) (l : list Prom.addend) : option cell :=
  match l with
  | [] => cur
  | a :: l' =>
      added (Some match cur with
                  | Some c => Prom.plus c a
                  | None => Prom.first a
                  end) l'
  end.

(** The rational a finite binary64 number is, in lowest terms. *)
Definition exact (x : float) : option Q :=
  match Prim2SF x with
  | S754_zero _ => Some 0%Q
  | S754_finite s m e =>
      Some (Qred ((if s then -1 else 1) * inject_Z (Z.pos m) * Qpower 2 e))
  | S754_infinity _ | S754_nan => None
  end.

(** What a series of the seconds counter reads as a number: 0 when it was
    never observed or holds [false]; nothing when it holds a string, NaN
    or an infinity. *)
Definition reading (c : option cell) : option Q :=
  match c with
  | None | Some Holds_false => Some 0%Q
  | Some (Numeric x) => exact x
  | Some Textual => None
  end.

(** Between the two states, the series of the seconds counter has grown
    by exactly [d]. *)
Definition grows_by (m m' : metrics) (k : string * string) (d : Q) : Prop :=
  exists v w,
    reading (viewSecondsCounter m !! k) = Some v
    /\ reading (viewSecondsCounter m' !! k) = Some w
    /\ (w == v + d)%Q.
(** * Properties *)

(** ** Statements over the catalog *)

Section Statements.

Lemma project_summary (c : Camera.t) :
  Sql.project (Sql.table_row c) CameraList.select_list = Some (Rows.summary c).
Proof. reflexivity. Qed.

Lemma project_detail (c : Camera.t) :
  Sql.project (Sql.table_row c) CameraById.select_list = Some (Rows.detail c).
Proof. reflexivity. Qed.

Lemma select_rows_filter (st : Sql.statement) (keep : Camera.t -> bool)
    (out : Camera.t -> Sql.row) (cams : list Camera.t) :
  (forall c, Sql.holds_all (Sql.params st) (Sql.table_row c) (Sql.where_ st)
             = Some (keep c)) ->
  (forall c, Sql.project (Sql.table_row c) (Sql.select st) = Some (out c)) ->
  Sql.select_rows st (map Sql.table_row cams)
  = Some (map out (List.filter keep cams)).
Proof.
  intros Hk Ho. induction cams as [|c cams IH]; [reflexivity|].
  cbn [map Sql.select_rows List.filter]. rewrite Hk, IH.
  destruct (keep c); [rewrite Ho|]; reflexivity.
Qed.

Lemma select_rows_sound (st : Sql.statement) (cams : list Camera.t)
    (rows : list Sql.row) :
  Sql.select_rows st (map Sql.table_row cams) = Some rows ->
  forall r, In r rows ->
    exists c, In c cams /\ Sql.project (Sql.table_row c) (Sql.select st) = Some r.
Proof.
  revert rows. induction cams as [|c cams IH]; intros rows H r Hr.
  - cbn in H. injection H as <-. destruct Hr.
  - cbn [map Sql.select_rows] in H.
    destruct (Sql.holds_all _ _ _) as [[|]|]; try discriminate;
      destruct (Sql.select_rows st (map Sql.table_row cams)) as [rest|] eqn:E;
      try discriminate.
    + destruct (Sql.project (Sql.table_row c) (Sql.select st)) as [out|] eqn:P;
        [|discriminate].
      injection H as <-. destruct Hr as [<-|Hr].
      * exists c. split; [now left|exact P].
      * destruct (IH rest eq_refl r Hr) as (c' & Hin & Hp).
        exists c'. split; [now right|exact Hp].
    + injection H as <-.
      destruct (IH rest eq_refl r Hr) as (c' & Hin & Hp).
      exists c'. split; [now right|exact Hp].
Qed.

Lemma filter_all {A} (l : list A) : List.filter (fun _ => true) l = l.
Proof. induction l as [|a l IH]; [reflexivity|]. cbn. now rewrite IH. Qed.

Lemma filter_none {A} (f : A -> bool) (l : list A) :
  (forall x, In x l -> f x = false) -> List.filter f l = [].
Proof.
  induction l as [|a l IH]; intros H; [reflexivity|].
  cbn. rewrite (H a) by now left. apply IH. intros x Hx. apply H. now right.
Qed.

(** With a primary key, the rows with a given id are one row. *)
Lemma filter_unique_id (cams : list Camera.t) (c : Camera.t) :
  List.NoDup (map Camera.id cams) -> In c cams ->
  List.filter (fun x => String.eqb (Camera.id x) (Camera.id c) && true) cams = [c].
Proof.
  induction cams as [|a cams IH]; intros Hnd Hin; [destruct Hin|].
  cbn [map] in Hnd. apply NoDup_cons_iff in Hnd. destruct Hnd as [Hfresh Hnd].
  cbn [List.filter]. destruct Hin as [->|Hin].
  - rewrite String.eqb_refl. cbn. f_equal.
    apply filter_none. intros x Hx.
    destruct (String.eqb_spec (Camera.id x) (Camera.id c)) as [E|E]; [|reflexivity].
    exfalso. apply Hfresh. rewrite <- E. now apply in_map.
  - destruct (String.eqb_spec (Camera.id a) (Camera.id c)) as [E|E].
    + exfalso. apply Hfresh. rewrite E. now apply in_map.
    + cbn. now apply IH.
Qed.

Lemma filter_absent_id (cams : list Camera.t) (id : string) :
  (forall c, In c cams -> Camera.id c <> id) ->
  List.filter (fun x => String.eqb (Camera.id x) id && true) cams = [].
Proof.
  intros H. apply filter_none. intros x Hx.
  destruct (String.eqb_spec (Camera.id x) id) as [E|E]; [|reflexivity].
  destruct (H x Hx E).
Qed.

Lemma by_id_rows (db : Store) (id : string) :
  reachable db = true ->
  pool_query db {| Sql.select := CameraById.select_list;
                   Sql.where_ := [Sql.Column_eq "id" 1];
                   Sql.params := [Sql.Text id] |}
  = Some (map Rows.detail
            (List.filter (fun x => String.eqb (Camera.id x) id && true)
               (cameras db))).
Proof.
  intros Hr. unfold pool_query, Sql.run. rewrite Hr. cbn [forallb Sql.where_].
  change (Sql.resolves (Sql.Column_eq "id" 1)) with true. cbn [andb].
  apply select_rows_filter; intros c; reflexivity.
Qed.

Lemma summary_fields (c1 c2 : Camera.t) :
  Rows.summary c1 = Rows.summary c2 ->
  Camera.lng c1 = Camera.lng c2 /\ Camera.lat c1 = Camera.lat c2
  /\ Camera.role c1 = Camera.role c2.
Proof.
  unfold Rows.summary. intros H.
  injection H as _ _ Hrole _ _ _ _ _ _ _ Hlng Hlat.
  repeat split; congruence.
Qed.

Lemma summary_in_filter (keep : Camera.t -> bool) (cams : list Camera.t)
    (c : Camera.t) :
  (forall c', Rows.summary c' = Rows.summary c -> keep c' = keep c) ->
  In c cams ->
  In (Rows.summary c) (map Rows.summary (List.filter keep cams))
  <-> keep c = true.
Proof.
  intros Hk Hc. split.
  - intros H. apply in_map_iff in H as (c' & Heq & Hin).
    apply filter_In in Hin as [_ Hkeep]. rewrite <- (Hk c' Heq). exact Hkeep.
  - intros H. apply in_map. apply filter_In. split; assumption.
Qed.

End Statements.

(** ** The list handler, case by case *)

Section ListForm.
Import JsString JsNumber CameraList.

Lemma bbox_clause_falsy (bbox : option string) :
  truthy_opt bbox = false -> bbox_clause bbox = Some ([], []).
Proof.
  destruct bbox as [b|]; [|reflexivity]. cbn. intros ->. reflexivity.
Qed.

Lemma parts_truthy (b : string) :
  List.length (parts_of b) = 4%nat -> truthy b = true.
Proof. destruct b; [discriminate|reflexivity]. Qed.

Lemma bbox_clause_four (b : string) (n1 n2 n3 n4 : number) :
  parts_of b = [n1; n2; n3; n4] ->
  existsb isNaN [n1; n2; n3; n4] = false ->
  bbox_clause (Some b)
  = Some ([Sql.Float n1; Sql.Float n2; Sql.Float n3; Sql.Float n4],
          [Sql.ST_Contains_Envelope 1 2 3 4]).
Proof.
  intros Hp Hn. unfold bbox_clause.
  rewrite parts_truthy by (rewrite Hp; reflexivity).
  cbv zeta. rewrite Hp, Hn. reflexivity.
Qed.

Lemma bbox_clause_rejects (b : string) :
  truthy b = true ->
  List.length (parts_of b) <> 4%nat \/ existsb isNaN (parts_of b) = true ->
  bbox_clause (Some b) = None.
Proof.
  intros Ht H. unfold bbox_clause. rewrite Ht. cbv zeta.
  destruct H as [H|H].
  - apply Nat.eqb_neq in H. rewrite H. reflexivity.
  - rewrite H, orb_true_r. reflexivity.
Qed.

Lemma role_clause_falsy (role : option string) acc :
  truthy_opt role = false -> role_clause role acc = acc.
Proof.
  destruct acc as [ps ws]. destruct role as [r|]; [|reflexivity].
  cbn. intros ->. reflexivity.
Qed.

Lemma role_clause_truthy (r : string) ps ws :
  truthy r = true ->
  role_clause (Some r) (ps, ws)
  = ((ps ++ [Sql.Text r])%list,
     (ws ++ [Sql.Column_eq "role" (List.length (ps ++ [Sql.Text r])%list)])%list).
Proof. cbn. intros ->. reflexivity. Qed.

(** An accepted request whose conditions all resolve. *)
Lemma handler_accepts (db : Store) bbox role acc (keep : Camera.t -> bool) :
  bbox_clause bbox = Some acc ->
  reachable db = true ->
  forallb Sql.resolves (snd (role_clause role acc)) = true ->
  (forall c, Sql.holds_all (fst (role_clause role acc)) (Sql.table_row c)
               (snd (role_clause role acc)) = Some (keep c)) ->
  handler db bbox role
  = (ok (map Rows.summary (List.filter keep (cameras db))),
     [listing (snd (role_clause role acc)) (fst (role_clause role acc))]).
Proof.
  intros Hb Hr Hres Hk. unfold handler. rewrite Hb.
  destruct (role_clause role acc) as [ps ws] eqn:E. cbn [fst snd] in *.
  unfold pool_query, Sql.run. rewrite Hr. cbn [Sql.where_]. rewrite Hres.
  rewrite (select_rows_filter _ keep Rows.summary); [reflexivity|exact Hk|].
  intros c. apply project_summary.
Qed.

Lemma handler_unfiltered (db : Store) bbox role :
  truthy_opt bbox = false -> truthy_opt role = false ->
  reachable db = true ->
  handler db bbox role = (ok (map Rows.summary (cameras db)), [listing [] []]).
Proof.
  intros Hb Hr Hd.
  rewrite (handler_accepts db bbox role ([], []) (fun _ => true));
    try assumption.
  - rewrite role_clause_falsy by assumption. cbn [fst snd].
    now rewrite filter_all.
  - now apply bbox_clause_falsy.
  - rewrite role_clause_falsy by assumption. reflexivity.
  - intros c. rewrite role_clause_falsy by assumption. reflexivity.
Qed.

Lemma handler_role_only (db : Store) bbox (r : string) :
  truthy_opt bbox = false -> truthy r = true ->
  reachable db = true ->
  handler db bbox (Some r)
  = (ok (map Rows.summary
           (List.filter (fun c => String.eqb (Camera.role c) r) (cameras db))),
     [listing [Sql.Column_eq "role" 1] [Sql.Text r]]).
Proof.
  intros Hb Hr Hd.
  rewrite (handler_accepts db bbox (Some r) ([], [])
             (fun c => String.eqb (Camera.role c) r && true));
    try assumption.
  - rewrite role_clause_truthy by assumption. cbn [fst snd app List.length].
    f_equal. f_equal. f_equal. apply filter_ext. intros c. apply andb_true_r.
  - now apply bbox_clause_falsy.
  - rewrite role_clause_truthy by assumption. reflexivity.
  - intros c. rewrite role_clause_truthy by assumption. reflexivity.
Qed.

(** What is sent to the store for a well-formed viewport, and what comes
    back: the viewport condition does not resolve on the [geom] column of
    the schema, so the store refuses the statement. *)
Lemma handler_bbox (db : Store) (b : string) role (n1 n2 n3 n4 : number) :
  parts_of b = [n1; n2; n3; n4] ->
  existsb isNaN [n1; n2; n3; n4] = false ->
  handler db (Some b) role
  = (internal_error,
     [listing
        (snd (role_clause role
                ([Sql.Float n1; Sql.Float n2; Sql.Float n3; Sql.Float n4],
                 [Sql.ST_Contains_Envelope 1 2 3 4])))
        (fst (role_clause role
                ([Sql.Float n1; Sql.Float n2; Sql.Float n3; Sql.Float n4],
                 [Sql.ST_Contains_Envelope 1 2 3 4])))]).
Proof.
  intros Hp Hn. unfold handler.
  rewrite (bbox_clause_four b n1 n2 n3 n4 Hp Hn).
  assert (Hw : exists ps ws,
             role_clause role
               ([Sql.Float n1; Sql.Float n2; Sql.Float n3; Sql.Float n4],
                [Sql.ST_Contains_Envelope 1 2 3 4])
             = (ps, Sql.ST_Contains_Envelope 1 2 3 4 :: ws)).
  { destruct role as [r|]; [|now eexists _, _].
    cbn. destruct (truthy r); now eexists _, _. }
  destruct Hw as (ps & ws & ->). cbn [fst snd].
  unfold pool_query, Sql.run. cbn [Sql.where_ forallb].
  change (Sql.resolves (Sql.ST_Contains_Envelope 1 2 3 4)) with false.
  cbn [andb]. destruct (reachable db); reflexivity.
Qed.

Lemma list_rows_are_summaries (db : Store) bbox role (rows : list Sql.row) :
  fst (handler db bbox role) = ok rows ->
  forall r, In r rows -> exists c, In c (cameras db) /\ r = Rows.summary c.
Proof.
  unfold handler.
  destruct (bbox_clause bbox) as [acc|]; [|discriminate].
  destruct (role_clause role acc) as [ps ws].
  unfold pool_query, Sql.run. destruct (reachable db); [|discriminate].
  destruct (forallb Sql.resolves _); [|discriminate].
  destruct (Sql.select_rows _ _) as [rows'|] eqn:E; [|discriminate].
  cbn [fst]. intros H r Hr. injection H as ->.
  destruct (select_rows_sound _ _ _ E r Hr) as (c & Hin & Hp).
  exists c. split; [exact Hin|].
  cbn [Sql.select] in Hp. rewrite project_summary in Hp. congruence.
Qed.

End ListForm.

(** ** The catalog read path: claims *)

(** C1, as amended: a non-empty [bbox] whose comma-separated decomposition
    does not have exactly four components, or has a component that
    [Number] turns into NaN, is answered with status 400 and nothing is
    sent to the store, whatever the role filter. *)
Theorem malformed_bbox_is_rejected (db : Store) (b : string) (role : option string) :
  JsString.truthy b = true ->
  List.length (JsString.split "," b) <> 4%nat
  \/ (exists p, In p (JsString.split "," b) /\ JsNumber.Number p = NaN) ->
  CameraList.handler db (Some b) role = (CameraList.bad_bbox, [])
  /\ status CameraList.bad_bbox = 400.
Proof.
  intros Ht H. split; [|reflexivity].
  unfold CameraList.handler.
  rewrite bbox_clause_rejects; [reflexivity|exact Ht|].
  unfold CameraList.parts_of. rewrite length_map.
  destruct H as [H|(p & Hp & Hn)]; [now left|right].
  apply existsb_exists. exists (JsNumber.Number p). split.
  - now apply in_map.
  - now rewrite Hn.
Qed.

Lemma malformed_bbox_is_rejected_witness :
  CameraList.handler Sample.db (Some "0,0,abc,30") (Some "traffic")
  = (CameraList.bad_bbox, [])
  /\ status CameraList.bad_bbox = 400.
Proof.
  apply (malformed_bbox_is_rejected Sample.db "0,0,abc,30" (Some "traffic")).
  - reflexivity.
  - right. exists "abc". split; [vm_compute; tauto|reflexivity].
Defined.

(** C1 as stated fails on the empty string: it has one component, yet the
    store is queried and the whole catalog comes back. *)
Lemma empty_bbox_reaches_store :
  List.length (JsString.split "," "") = 1%nat
  /\ CameraList.handler Sample.db (Some "") None
     = (ok [Rows.summary Sample.cam1; Rows.summary Sample.cam2],
        [CameraList.listing [] []]).
Proof. split; reflexivity. Qed.

(** An empty component is read as 0 by [Number], so such a box passes the
    validation and a statement is sent. *)
Example empty_component_reads_as_zero :
  JsString.split "," "1,,3,4" = ["1"; ""; "3"; "4"]
  /\ CameraList.parts_of "1,,3,4" = [Fin 1; Fin 0; Fin 3; Fin 4]
  /\ snd (CameraList.handler Sample.db (Some "1,,3,4") None)
     = [CameraList.listing [Sql.ST_Contains_Envelope 1 2 3 4]
          [Sql.Float (Fin 1); Sql.Float (Fin 0); Sql.Float (Fin 3); Sql.Float (Fin 4)]].
Proof. repeat split; reflexivity. Qed.

(** C2, a defect of the code: a camera strictly inside a valid viewport is
    not returned.  The statement the handler sends tests [ST_Contains] on
    the bare column [geom], which the schema declares a geography; the
    condition does not resolve, the store refuses the statement and the
    answer is the internal error, not the row of the camera. *)
Theorem interior_camera_is_not_returned :
  CameraList.parts_of "0,0,20,30" = Viewport.numbers Sample.box
  /\ Viewport.valid Sample.box
  /\ In Sample.cam1 (cameras Sample.db)
  /\ Viewport.interior Sample.box Sample.cam1
  /\ Viewport.closed Sample.box Sample.cam1
  /\ Sql.column_type "geom" = Some Sql.GEOGRAPHY
  /\ Sql.resolves (Sql.ST_Contains_Envelope 1 2 3 4) = false
  /\ CameraList.handler Sample.db (Some "0,0,20,30") None
     = (internal_error,
        [CameraList.listing [Sql.ST_Contains_Envelope 1 2 3 4]
           (map Sql.Float (Viewport.numbers Sample.box))]).
Proof.
  split; [reflexivity|]. split; [split; discriminate|].
  split; [now left|]. split; [repeat split; reflexivity|].
  split; [repeat split; discriminate|].
  repeat split; reflexivity.
Qed.

(** C4, a defect of the code: with a viewport and a role both supplied,
    the statement carries the two conditions joined by AND, but the store
    refuses it because of the viewport condition (the defect of C2), so a
    camera that is inside the viewport and has the role is not returned.
    The role filter alone is exact and case-sensitive, and without any
    filter the whole catalog is returned. *)
Theorem viewport_and_role_query_fails :
  In Sample.cam1 (cameras Sample.db)
  /\ Viewport.interior Sample.box Sample.cam1
  /\ Camera.role Sample.cam1 = "traffic"
  /\ CameraList.handler Sample.db (Some "0,0,20,30") (Some "traffic")
     = (internal_error,
        [CameraList.listing
           [Sql.ST_Contains_Envelope 1 2 3 4; Sql.Column_eq "role" 5]
           (map Sql.Float (Viewport.numbers Sample.box) ++ [Sql.Text "traffic"])])
  /\ fst (CameraList.handler Sample.db None (Some "traffic"))
     = ok [Rows.summary Sample.cam1]
  /\ fst (CameraList.handler Sample.db_roles None (Some "traffic"))
     = ok [Rows.summary Sample.cam1]
  /\ fst (CameraList.handler Sample.db None None)
     = ok [Rows.summary Sample.cam1; Rows.summary Sample.cam2].
Proof.
  split; [now left|]. split; [repeat split; reflexivity|].
  repeat split; reflexivity.
Qed.

(** C8: the lookup of an id of the catalog answers with the row of that
    camera, stream locator included; the lookup of an id that is not in the
    catalog answers 404, which is not the internal error; and no row of the
    list form has a stream locator field. *)
Theorem lookup_by_id_and_list_projection (db : Store) (c : Camera.t)
    (missing : string) (bbox role : option string) :
  reachable db = true ->
  List.NoDup (map Camera.id (cameras db)) ->
  In c (cameras db) ->
  (forall c', In c' (cameras db) -> Camera.id c' <> missing) ->
  fst (CameraById.handler db (Camera.id c))
  = {| status := 200; body := Row (Rows.detail c) |}
  /\ Sql.field "stream_url" (Rows.detail c) = Some (Sql.Text (Camera.stream_url c))
  /\ fst (CameraById.handler db missing) = CameraById.not_found
  /\ status CameraById.not_found = 404
  /\ CameraById.not_found <> internal_error
  /\ (forall rows r,
         fst (CameraList.handler db bbox role) = ok rows ->
         In r rows -> Sql.field "stream_url" r = None).
Proof.
  intros Hr Hnd Hc Hmiss.
  split; [|split; [reflexivity|split; [|split; [reflexivity|split; [discriminate|]]]]].
  - unfold CameraById.handler. rewrite (by_id_rows db _ Hr).
    rewrite (filter_unique_id _ c Hnd Hc). reflexivity.
  - unfold CameraById.handler. rewrite (by_id_rows db _ Hr).
    rewrite (filter_absent_id _ missing Hmiss). reflexivity.
  - intros rows r H Hin.
    destruct (list_rows_are_summaries db bbox role rows H r Hin) as (c' & _ & ->).
    reflexivity.
Qed.

Lemma lookup_by_id_and_list_projection_witness :
  fst (CameraById.handler Sample.db "cam2")
  = {| status := 200; body := Row (Rows.detail Sample.cam2) |}
  /\ Sql.field "stream_url" (Rows.detail Sample.cam2)
     = Some (Sql.Text "rtsp://cameras.example/cam2")
  /\ fst (CameraById.handler Sample.db "cam9") = CameraById.not_found
  /\ status CameraById.not_found = 404
  /\ CameraById.not_found <> internal_error
  /\ (forall rows r,
         fst (CameraList.handler Sample.db None (Some "traffic")) = ok rows ->
         In r rows -> Sql.field "stream_url" r = None).
Proof.
  apply (lookup_by_id_and_list_projection Sample.db Sample.cam2 "cam9"
           None (Some "traffic")).
  - reflexivity.
  - repeat constructor; cbn; intuition discriminate.
  - right. now left.
  - intros c' [<-|[<-|[]]]; discriminate.
Defined.

(** C10: an empty [bbox] is handled as no [bbox] and an empty [role] as no
    [role]; with both empty the statement sent has no condition, and the
    answer is the whole catalog (or the internal error when the store does
    not answer), not a caller error. *)
Theorem empty_filters_count_as_absent (db : Store) (bbox role : option string) :
  CameraList.handler db (Some "") role = CameraList.handler db None role
  /\ CameraList.handler db bbox (Some "") = CameraList.handler db bbox None
  /\ snd (CameraList.handler db (Some "") (Some "")) = [CameraList.listing [] []]
  /\ fst (CameraList.handler db (Some "") (Some ""))
     = if reachable db then ok (map Rows.summary (cameras db)) else internal_error.
Proof.
  split; [reflexivity|]. split.
  - unfold CameraList.handler.
    destruct (CameraList.bbox_clause bbox) as [[ps ws]|]; reflexivity.
  - destruct (reachable db) eqn:E.
    + rewrite (handler_unfiltered db (Some "") (Some "") eq_refl eq_refl E).
      split; reflexivity.
    + unfold CameraList.handler, pool_query. cbn. rewrite E. split; reflexivity.
Qed.

(** The catalog of the end-to-end scenario: the role filter alone selects
    "cam2", an id that is not there is not found, and the statement of a
    viewport query, which names the geography column in [ST_Contains], is
    refused by the store. *)
Example catalog_scenario :
  fst (CameraList.handler Sample.db None (Some "perimeter"))
  = ok [Rows.summary Sample.cam2]
  /\ fst (CameraById.handler Sample.db "cam9") = CameraById.not_found
  /\ Sql.resolves (Sql.ST_Contains_Envelope 1 2 3 4) = false
  /\ fst (CameraList.handler Sample.db (Some "0,0,20,30") None) = internal_error.
Proof. repeat split; reflexivity. Qed.

(** ** The instruments *)

Section Instruments.
Context `{Countable K}.
Implicit Types (m : gmap K Z) (k : K).

Lemma read_inc m k : Prom.read (Prom.inc m k) k = Prom.read m k + 1.
Proof. unfold Prom.inc, Prom.read at 1. now rewrite lookup_insert_eq. Qed.

Lemma read_inc_other m k k' :
  k <> k' -> Prom.read (Prom.inc m k) k' = Prom.read m k'.
Proof.
  intros Hne. unfold Prom.inc, Prom.read at 1. now rewrite lookup_insert_ne.
Qed.

Lemma read_dec m k : Prom.read (Prom.dec m k) k = Prom.read m k - 1.
Proof. unfold Prom.dec, Prom.read at 1. now rewrite lookup_insert_eq. Qed.

Lemma read_dec_other m k k' :
  k <> k' -> Prom.read (Prom.dec m k) k' = Prom.read m k'.
Proof.
  intros Hne. unfold Prom.dec, Prom.read at 1. now rewrite lookup_insert_ne.
Qed.

Lemma inc_by_insert (s s' : gmap K cell) k (v : field_value) :
  Prom.inc_by s k v = Some s' -> exists c, s' = <[k := c]> s.
Proof.
  unfold Prom.inc_by. destruct (Prom.checked v); [|discriminate].
  intros E. injection E as <-. now eexists.
Qed.


End Instruments.

(** ** The telemetry handlers *)

Section Calls.
Import JsString.
Variable UAParser : option string -> option string * option string.
Variable geoReader : option (string -> geo_answer).

Lemma view_start_accepted (req : request) (b : body_fields) (cid : string)
    (m : metrics) :
  req_body req = Some b -> is_truthy (camera_id b) = true ->
  as_label (camera_id b) = Some cid ->
  view_start UAParser geoReader req m
  = (no_content,
     {| viewStartCounter :=
          Prom.inc (viewStartCounter m)
            (cid, getCountry geoReader (getClientIp req),
             fst (parseUA UAParser req), snd (parseUA UAParser req));
        viewersGauge :=
          Prom.inc (viewersGauge m) (cid, getCountry geoReader (getClientIp req));
        viewSecondsCounter := viewSecondsCounter m |}).
Proof.
  intros Hb Ht Hl. unfold view_start. rewrite Hb, Ht, Hl.
  destruct (parseUA UAParser req). reflexivity.
Qed.

Lemma view_end_accepted (req : request) (b : body_fields) (cid : string)
    (m : metrics) :
  req_body req = Some b -> is_truthy (camera_id b) = true ->
  as_label (camera_id b) = Some cid ->
  view_end geoReader req m
  = (no_content,
     {| viewStartCounter := viewStartCounter m;
        viewersGauge :=
          Prom.dec (viewersGauge m) (cid, getCountry geoReader (getClientIp req));
        viewSecondsCounter := viewSecondsCounter m |}).
Proof. intros Hb Ht Hl. unfold view_end. now rewrite Hb, Ht, Hl. Qed.

Lemma heartbeat_keeps_gauge (req : request) (m : metrics) :
  viewersGauge (snd (heartbeat geoReader req m)) = viewersGauge m.
Proof.
  unfold heartbeat. destruct (req_body req) as [b|]; [|reflexivity].
  destruct (is_truthy (camera_id b)); [|reflexivity].
  destruct (as_label (camera_id b)); [|reflexivity].
  destruct (Prom.inc_by _ _ _); reflexivity.
Qed.

Lemma heartbeat_keeps_starts (req : request) (m : metrics) :
  viewStartCounter (snd (heartbeat geoReader req m)) = viewStartCounter m.
Proof.
  unfold heartbeat. destruct (req_body req) as [b|]; [|reflexivity].
  destruct (is_truthy (camera_id b)); [|reflexivity].
  destruct (as_label (camera_id b)); [|reflexivity].
  destruct (Prom.inc_by _ _ _); reflexivity.
Qed.

Lemma view_end_keeps_starts (req : request) (m : metrics) :
  viewStartCounter (snd (view_end geoReader req m)) = viewStartCounter m.
Proof.
  unfold view_end. destruct (req_body req) as [b|]; [|reflexivity].
  destruct (is_truthy (camera_id b)); [|reflexivity].
  destruct (as_label (camera_id b)); reflexivity.
Qed.

(** What one call does to one gauge series. *)
Lemma serve_gauge (c : call) (m : metrics) (k : string * string) :
  Prom.read (viewersGauge (snd (serve UAParser geoReader c m))) k
  = Prom.read (viewersGauge m) k
    + count_moves geoReader 1 k [c] - count_moves geoReader (-1) k [c].
Proof.
  destruct c as [r|r|r]; cbn [serve count_moves gauge_move].
  - unfold view_start. destruct (req_body r) as [b|]; [|cbn [snd]; lia].
    destruct (is_truthy (camera_id b)); [|cbn [snd]; lia].
    destruct (parseUA UAParser r) as [br o].
    destruct (as_label (camera_id b)) as [cid|]; [|cbn [snd]; lia].
    cbn [snd viewersGauge].
    destruct (decide ((cid, getCountry geoReader (getClientIp r)) = k))
      as [<-|Hne].
    + rewrite read_inc. cbn. lia.
    + rewrite read_inc_other by exact Hne. lia.
  - rewrite heartbeat_keeps_gauge. lia.
  - unfold view_end. destruct (req_body r) as [b|]; [|cbn [snd]; lia].
    destruct (is_truthy (camera_id b)); [|cbn [snd]; lia].
    destruct (as_label (camera_id b)) as [cid|]; [|cbn [snd]; lia].
    cbn [snd viewersGauge].
    destruct (decide ((cid, getCountry geoReader (getClientIp r)) = k))
      as [<-|Hne].
    + rewrite read_dec. cbn. lia.
    + rewrite read_dec_other by exact Hne. lia.
Qed.

Lemma count_moves_cons (d : Z) (k : string * string) (c : call) (cs : list call) :
  count_moves geoReader d k (c :: cs)
  = count_moves geoReader d k [c] + count_moves geoReader d k cs.
Proof. cbn [count_moves]. lia. Qed.

(** The gauge after a sequence of calls: the starts on the series minus
    the ends on it, whatever else is interleaved. *)
Lemma run_gauge (cs : list call) (m : metrics) (k : string * string) :
  Prom.read (viewersGauge (run UAParser geoReader cs m)) k
  = Prom.read (viewersGauge m) k
    + count_moves geoReader 1 k cs - count_moves geoReader (-1) k cs.
Proof.
  revert m. induction cs as [|c cs IH]; intros m.
  - cbn. lia.
  - cbn [run]. rewrite IH, serve_gauge.
    rewrite (count_moves_cons 1 k c cs), (count_moves_cons (-1) k c cs). lia.
Qed.

Lemma normalise_closed (known : list string) (name : option string) :
  In (normalise known name) ("Other" :: known).
Proof.
  unfold normalise.
  set (n := match name with
            | Some s => if truthy s then s else "Other"
            | None => "Other"
            end).
  destruct (includes known n) eqn:E; [|now left].
  right. unfold includes in E. apply existsb_exists in E as (x & Hx & Heq).
  apply String.eqb_eq in Heq. now subst.
Qed.

Lemma normalise_browser_twice (name : option string) :
  normalise knownBrowsers (Some (normalise knownBrowsers name))
  = normalise knownBrowsers name.
Proof.
  pose proof (normalise_closed knownBrowsers name) as H.
  cbn [In knownBrowsers] in H.
  destruct H as [H|[H|[H|[H|[H|[]]]]]]; rewrite <- H; reflexivity.
Qed.

Lemma normalise_os_twice (name : option string) :
  normalise knownOS (Some (normalise knownOS name)) = normalise knownOS name.
Proof.
  pose proof (normalise_closed knownOS name) as H.
  cbn [In knownOS] in H.
  destruct H as [H|[H|[H|[H|[H|[H|[]]]]]]]; rewrite <- H; reflexivity.
Qed.

Lemma serve_closed_series (c : call) (m : metrics) :
  closed_series m -> closed_series (snd (serve UAParser geoReader c m)).
Proof.
  intros Hm. destruct c as [r|r|r]; cbn [serve].
  - unfold view_start. destruct (req_body r) as [b|]; [|exact Hm].
    destruct (is_truthy (camera_id b)); [|exact Hm].
    destruct (parseUA UAParser r) as [br o] eqn:E.
    destruct (as_label (camera_id b)) as [cid|]; [|exact Hm]. cbn [snd].
    intros cid' country' b' o'. cbn [viewStartCounter]. unfold Prom.inc.
    rewrite lookup_insert. case_decide as Hk.
    + intros _. injection Hk as _ _ <- <-.
      unfold parseUA in E. injection E as <- <-.
      split; apply normalise_closed.
    + apply Hm.
  - intros cid' country' b' o'. rewrite heartbeat_keeps_starts. apply Hm.
  - unfold view_end. destruct (req_body r) as [b|]; [|exact Hm].
    destruct (is_truthy (camera_id b)); [|exact Hm].
    destruct (as_label (camera_id b)); exact Hm.
Qed.

Lemma run_closed_series (cs : list call) (m : metrics) :
  closed_series m -> closed_series (run UAParser geoReader cs m).
Proof.
  revert m. induction cs as [|c cs IH]; intros m Hm; [exact Hm|].
  cbn [run]. apply IH. now apply serve_closed_series.
Qed.

Lemma no_metrics_closed : closed_series no_metrics.
Proof.
  intros cid country b o [v Hv]. cbn in Hv. now rewrite lookup_empty in Hv.
Qed.

End Calls.

(** ** The telemetry write path: claims *)

(** C3: an accepted view-start adds exactly 1 to its series of the start
    counter and to its series of the gauge, an accepted view-end takes
    exactly 1 from the gauge, and after any sequence of calls holding N
    accepted view-starts and N accepted view-ends on one (camera, country)
    pair, interleaved with whatever other calls, the gauge of that pair is
    back at its value before the sequence. *)
Theorem view_start_end_balance
    (UAParser : option string -> option string * option string)
    (geoReader : option (string -> geo_answer))
    (req : request) (b : body_fields) (cid : string) (m : metrics)
    (cs : list call) (N : Z) :
  req_body req = Some b ->
  is_truthy (camera_id b) = true ->
  as_label (camera_id b) = Some cid ->
  count_moves geoReader 1 (cid, getCountry geoReader (getClientIp req)) cs = N ->
  count_moves geoReader (-1) (cid, getCountry geoReader (getClientIp req)) cs = N ->
  Prom.read (viewStartCounter (snd (view_start UAParser geoReader req m)))
    (cid, getCountry geoReader (getClientIp req),
     fst (parseUA UAParser req), snd (parseUA UAParser req))
  = Prom.read (viewStartCounter m)
      (cid, getCountry geoReader (getClientIp req),
       fst (parseUA UAParser req), snd (parseUA UAParser req)) + 1
  /\ Prom.read (viewersGauge (snd (view_start UAParser geoReader req m)))
       (cid, getCountry geoReader (getClientIp req))
     = Prom.read (viewersGauge m) (cid, getCountry geoReader (getClientIp req)) + 1
  /\ Prom.read (viewersGauge (snd (view_end geoReader req m)))
       (cid, getCountry geoReader (getClientIp req))
     = Prom.read (viewersGauge m) (cid, getCountry geoReader (getClientIp req)) - 1
  /\ Prom.read (viewersGauge (run UAParser geoReader cs m))
       (cid, getCountry geoReader (getClientIp req))
     = Prom.read (viewersGauge m) (cid, getCountry geoReader (getClientIp req)).
Proof.
  intros Hb Ht Hl Hs He.
  rewrite (view_start_accepted UAParser geoReader req b cid m Hb Ht Hl).
  rewrite (view_end_accepted geoReader req b cid m Hb Ht Hl).
  cbn [snd viewStartCounter viewersGauge].
  rewrite !read_inc, read_dec, run_gauge, Hs, He.
  repeat split; lia.
Qed.

Lemma view_start_end_balance_witness :
  Prom.read
    (viewStartCounter
       (snd (view_start Sample.ua_firefox None (Sample.post (Some "cam1") Absent)
               no_metrics)))
    ("cam1", "ZZ", "Firefox", "Linux") = 0 + 1
  /\ Prom.read
       (viewersGauge
          (snd (view_start Sample.ua_firefox None (Sample.post (Some "cam1") Absent)
                  no_metrics)))
       ("cam1", "ZZ") = 0 + 1
  /\ Prom.read
       (viewersGauge
          (snd (view_end None (Sample.post (Some "cam1") Absent) no_metrics)))
       ("cam1", "ZZ") = 0 - 1
  /\ Prom.read
       (viewersGauge
          (run Sample.ua_firefox None
             [ViewStart (Sample.post (Some "cam1") Absent);
              ViewStart (Sample.post (Some "cam2") Absent);
              ViewStart (Sample.post (Some "cam1") Absent);
              Heartbeat (Sample.post (Some "cam1") Absent);
              ViewEnd (Sample.post (Some "cam1") Absent);
              ViewEnd (Sample.post None Absent);
              ViewEnd (Sample.post (Some "cam1") Absent)]
             no_metrics))
       ("cam1", "ZZ") = 0.
Proof.
  exact (view_start_end_balance Sample.ua_firefox None
           (Sample.post (Some "cam1") Absent)
           {| camera_id := Id.of_string "cam1"; seconds := Absent |} "cam1"
           no_metrics
           [ViewStart (Sample.post (Some "cam1") Absent);
            ViewStart (Sample.post (Some "cam2") Absent);
            ViewStart (Sample.post (Some "cam1") Absent);
            Heartbeat (Sample.post (Some "cam1") Absent);
            ViewEnd (Sample.post (Some "cam1") Absent);
            ViewEnd (Sample.post None Absent);
            ViewEnd (Sample.post (Some "cam1") Absent)]
           2 eq_refl eq_refl eq_refl eq_refl eq_refl).
Defined.

(** C5: whatever the parser reports for whatever user-agent header (or
    none), [parseUA] yields a browser among Chrome, Firefox, Safari, Edge,
    Other and an OS among Windows, macOS, iOS, Android, Linux, Other;
    normalising a normalised name changes nothing; and every series of the
    start counter, after any sequence of calls from the empty registry,
    carries labels of these sets. *)
Theorem user_agent_labels_are_closed
    (UAParser : option string -> option string * option string)
    (geoReader : option (string -> geo_answer))
    (req : request) (name : option string) (cs : list call)
    (cid country browser os : string) :
  is_Some (viewStartCounter (run UAParser geoReader cs no_metrics)
             !! (cid, country, browser, os)) ->
  In (fst (parseUA UAParser req)) ["Other"; "Chrome"; "Firefox"; "Safari"; "Edge"]
  /\ In (snd (parseUA UAParser req))
        ["Other"; "Windows"; "macOS"; "iOS"; "Android"; "Linux"]
  /\ normalise knownBrowsers (Some (normalise knownBrowsers name))
     = normalise knownBrowsers name
  /\ normalise knownOS (Some (normalise knownOS name)) = normalise knownOS name
  /\ In browser ["Other"; "Chrome"; "Firefox"; "Safari"; "Edge"]
  /\ In os ["Other"; "Windows"; "macOS"; "iOS"; "Android"; "Linux"].
Proof.
  intros Hk.
  split; [apply (normalise_closed knownBrowsers)|].
  split; [apply (normalise_closed knownOS)|].
  split; [apply normalise_browser_twice|].
  split; [apply normalise_os_twice|].
  exact (run_closed_series UAParser geoReader cs no_metrics no_metrics_closed
           cid country browser os Hk).
Qed.

Lemma user_agent_labels_are_closed_witness :
  In (fst (parseUA Sample.ua_exotic (Sample.post (Some "cam1") Absent)))
     ["Other"; "Chrome"; "Firefox"; "Safari"; "Edge"]
  /\ In (snd (parseUA Sample.ua_exotic (Sample.post (Some "cam1") Absent)))
        ["Other"; "Windows"; "macOS"; "iOS"; "Android"; "Linux"]
  /\ normalise knownBrowsers (Some (normalise knownBrowsers (Some "Opera")))
     = normalise knownBrowsers (Some "Opera")
  /\ normalise knownOS (Some (normalise knownOS (Some "Opera")))
     = normalise knownOS (Some "Opera")
  /\ In "Other" ["Other"; "Chrome"; "Firefox"; "Safari"; "Edge"]
  /\ In "Other" ["Other"; "Windows"; "macOS"; "iOS"; "Android"; "Linux"].
Proof.
  apply (user_agent_labels_are_closed Sample.ua_exotic None
           (Sample.post (Some "cam1") Absent) (Some "Opera")
           [ViewStart (Sample.post (Some "cam1") Absent)]
           "cam1" "ZZ" "Other" "Other").
  vm_compute. eauto.
Defined.




(** C7: a view-end on a (camera, country) pair whose gauge reads 0 (at
    zero, or never observed) is answered 204 like any other and leaves the
    gauge at -1; a second one leaves it at -2. *)
Theorem view_end_has_no_floor
    (geoReader : option (string -> geo_answer))
    (req : request) (b : body_fields) (cid : string) (m : metrics) :
  req_body req = Some b ->
  is_truthy (camera_id b) = true ->
  as_label (camera_id b) = Some cid ->
  Prom.read (viewersGauge m) (cid, getCountry geoReader (getClientIp req)) = 0 ->
  fst (view_end geoReader req m) = no_content
  /\ viewersGauge (snd (view_end geoReader req m))
       !! (cid, getCountry geoReader (getClientIp req))
     = Some (-1)
  /\ Prom.read
       (viewersGauge (snd (view_end geoReader req (snd (view_end geoReader req m)))))
       (cid, getCountry geoReader (getClientIp req)) = -2.
Proof.
  intros Hb Ht Hl H0.
  rewrite (view_end_accepted geoReader req b cid
             (snd (view_end geoReader req m)) Hb Ht Hl).
  rewrite (view_end_accepted geoReader req b cid m Hb Ht Hl).
  cbn [fst snd viewersGauge]. rewrite !read_dec, H0.
  split; [reflexivity|]. split; [|reflexivity].
  unfold Prom.dec. rewrite lookup_insert_eq, H0. reflexivity.
Qed.

Lemma view_end_has_no_floor_witness :
  fst (view_end None (Sample.post (Some "cam1") Absent) no_metrics) = no_content
  /\ viewersGauge (snd (view_end None (Sample.post (Some "cam1") Absent) no_metrics))
       !! ("cam1", getCountry None (getClientIp (Sample.post (Some "cam1") Absent)))
     = Some (-1)
  /\ Prom.read
       (viewersGauge
          (snd (view_end None (Sample.post (Some "cam1") Absent)
                  (snd (view_end None (Sample.post (Some "cam1") Absent)
                          no_metrics)))))
       ("cam1", getCountry None (getClientIp (Sample.post (Some "cam1") Absent)))
     = -2.
Proof.
  apply (view_end_has_no_floor None (Sample.post (Some "cam1") Absent)
           {| camera_id := Id.of_string "cam1"; seconds := Absent |} "cam1"
           no_metrics); reflexivity.
Defined.

(** C9, as amended: whatever the parser and the geolocation reader do, a
    telemetry call is answered 500 when [req.body] is undefined and 400
    when [camera_id] is falsy; with a truthy [camera_id] it is answered
    500 when [camera_id] cannot be converted to a string, and otherwise
    204 for a view-start and a view-end; for a heartbeat, 500 when
    [seconds] is [true], a non-empty string, an array, an object, an
    infinity or a number below zero, and 204 for every other value
    ([undefined], [null], [false], the empty string, a zero, NaN, a finite
    number above zero). *)
Theorem telemetry_outcomes
    (UAParser : option string -> option string * option string)
    (geoReader : option (string -> geo_answer))
    (req : request) (m : metrics) :
  fst (view_start UAParser geoReader req m)
  = match req_body req with
    | None => uncaught
    | Some b =>
        if is_truthy (camera_id b) then
          match as_label (camera_id b) with
          | Some _ => no_content
          | None => uncaught
          end
        else camera_id_required
    end
  /\ fst (view_end geoReader req m)
     = match req_body req with
       | None => uncaught
       | Some b =>
           if is_truthy (camera_id b) then
             match as_label (camera_id b) with
             | Some _ => no_content
             | None => uncaught
             end
           else camera_id_required
       end
  /\ fst (heartbeat geoReader req m)
     = match req_body req with
       | None => uncaught
       | Some b =>
           if is_truthy (camera_id b) then
             match as_label (camera_id b) with
             | None => uncaught
             | Some _ =>
                 match seconds b with
                 | Absent | Null => no_content
                 | Flag flag => if flag then uncaught else no_content
                 | Str s => if JsString.truthy s then uncaught else no_content
                 | Other => uncaught
                 | Num x =>
                     if PrimFloat.is_nan x || PrimFloat.eqb x 0 then no_content
                     else if PrimFloat.is_infinity x || PrimFloat.ltb x 0
                          then uncaught
                          else no_content
                 end
             end
           else camera_id_required
       end.
Proof.
  unfold view_start, view_end, heartbeat.
  destruct (req_body req) as [b|]; [|repeat split; reflexivity].
  destruct (is_truthy (camera_id b)); [|repeat split; reflexivity].
  destruct (as_label (camera_id b)) as [cid|];
    [|split; [destruct (parseUA UAParser req)|split]; reflexivity].
  split; [destruct (parseUA UAParser req); reflexivity|].
  split; [reflexivity|].
  unfold Prom.inc_by.
  destruct (seconds b) as [| |flag|x|s|]; cbn [Prom.checked]; try reflexivity.
  - destruct flag; reflexivity.
  - unfold Prom.truthy_number, PrimFloat.is_finite.
    destruct (PrimFloat.is_nan x), (PrimFloat.eqb x 0),
      (PrimFloat.is_infinity x), (PrimFloat.ltb x 0); reflexivity.
  - destruct (JsString.truthy s); reflexivity.
Qed.

(** C9 as stated fails on a heartbeat that has a [camera_id] and a
    negative [seconds]: the counter refuses the value and the call is
    answered 500. *)
Lemma negative_seconds_fail_the_heartbeat :
  is_truthy (Id.of_string "cam1") = true
  /\ heartbeat None (Sample.post (Some "cam1") (Num (-5))) no_metrics
     = (uncaught, no_metrics)
  /\ status uncaught = 500.
Proof. repeat split; reflexivity. Qed.

(** Three view-starts and one view-end on "cam1": the gauge reads 2 and the
    start counter 3. *)
Example telemetry_scenario :
  Prom.read
    (viewersGauge
       (run Sample.ua_firefox None
          [ViewStart (Sample.post (Some "cam1") Absent);
           ViewStart (Sample.post (Some "cam1") Absent);
           ViewStart (Sample.post (Some "cam1") Absent);
           ViewEnd (Sample.post (Some "cam1") Absent)]
          no_metrics))
    ("cam1", "ZZ") = 2
  /\ Prom.read
       (viewStartCounter
          (run Sample.ua_firefox None
             [ViewStart (Sample.post (Some "cam1") Absent);
              ViewStart (Sample.post (Some "cam1") Absent);
              ViewStart (Sample.post (Some "cam1") Absent);
              ViewEnd (Sample.post (Some "cam1") Absent)]
             no_metrics))
       ("cam1", "ZZ", "Firefox", "Linux") = 3.
Proof. split; vm_compute; reflexivity. Qed.

(** The outcomes at the edges of the input: no body; a [camera_id] that
    is 0, [false], the empty array, or an object without a text;
    [seconds] that is [false], the empty string, an infinity or a
    string. *)
Example telemetry_edge_cases :
  view_start Sample.ua_firefox None Sample.bodyless no_metrics
  = (uncaught, no_metrics)
  /\ fst (heartbeat None (Sample.post_id Id.zero Absent) no_metrics)
     = camera_id_required
  /\ fst (view_start Sample.ua_firefox None
            (Sample.post_id (Id.of_bool false) Absent) no_metrics)
     = camera_id_required
  /\ fst (view_end None (Sample.post_id (Id.of_strings []) Absent) no_metrics)
     = no_content
  /\ view_end None (Sample.post_id Id.unprintable Absent) no_metrics
     = (uncaught, no_metrics)
  /\ fst (heartbeat None (Sample.post (Some "cam1") (Flag false)) no_metrics)
     = no_content
  /\ fst (heartbeat None (Sample.post (Some "cam1") (Str "")) no_metrics)
     = no_content
  /\ heartbeat None (Sample.post (Some "cam1") (Num infinity)) no_metrics
     = (uncaught, no_metrics)
  /\ heartbeat None (Sample.post (Some "cam1") (Str "10")) no_metrics
     = (uncaught, no_metrics).
Proof. repeat split; reflexivity. Qed.

(** Heartbeats whose sums are binary64 numbers: on a fresh series the
    default adds exactly 10, and on a series at 10 an explicit 2.5 adds
    exactly 5/2. *)
Example seconds_scenario :
  grows_by no_metrics
    (snd (heartbeat None (Sample.post (Some "cam1") Absent) no_metrics))
    ("cam1", "ZZ") 10
  /\ grows_by (Sample.seconds_at 10)
       (snd (heartbeat None (Sample.post (Some "cam1") (Num 2.5))
               (Sample.seconds_at 10)))
       ("cam1", "ZZ") (5 # 2).
Proof.
  split.
  - exists 0%Q, 10%Q. repeat split; vm_compute; reflexivity.
  - exists 10%Q, (25 # 2)%Q. repeat split; vm_compute; reflexivity.
Qed.

(** * Further properties of the handlers and their helpers *)

(** ** The client context *)

Section ClientContext.
Import JsString.

Lemma split_without_separator (sep : ascii) (a : string) :
  occurs sep a = false -> split sep a = [a].
Proof.
  induction a as [|c a IH]; [reflexivity|].
  cbn [occurs split]. intros H. apply orb_false_iff in H as [Hc Ha].
  rewrite Hc, (IH Ha). reflexivity.
Qed.

Lemma split_at_first_separator (sep : ascii) (a r : string) :
  occurs sep a = false ->
  split sep (a ++ String sep r) = a :: split sep r.
Proof.
  induction a as [|c a IH]; cbn [occurs].
  - intros _. change ("" ++ String sep r) with (String sep r).
    cbn [split]. now rewrite Ascii.eqb_refl.
  - intros H. apply orb_false_iff in H as [Hc Ha].
    change (String c a ++ String sep r) with (String c (a ++ String sep r)).
    cbn [split]. rewrite Hc, (IH Ha). reflexivity.
Qed.

Lemma split_head (sep : ascii) (s : string) : exists h t, split sep s = h :: t.
Proof.
  induction s as [|c s (h & t & IH)]; [now eexists _, _|].
  cbn [split]. destruct (Ascii.eqb c sep); [now eexists _, _|].
  rewrite IH. now eexists _, _.
Qed.

Lemma getClientIp_forwarded (req : request) (x : string) :
  x_forwarded_for req = Some x -> x <> "" ->
  getClientIp req = trim (hd "" (split "," x)).
Proof.
  intros Hx Hne. unfold getClientIp. rewrite Hx.
  destruct x as [|c x]; [congruence|]. cbn [String.length Nat.ltb Nat.leb].
  destruct (split_head "," (String c x)) as (h & t & ->). reflexivity.
Qed.

Lemma trim_blank (s : string) : all_ws s = true -> trim s = "".
Proof.
  unfold all_ws, trim. destruct (skip_ws s); [reflexivity|discriminate].
Qed.

Lemma getCountry_nonempty (geoReader : option (string -> geo_answer)) (ip : string) :
  truthy (getCountry geoReader ip) = true.
Proof.
  unfold getCountry. destruct geoReader as [reader|]; [|reflexivity].
  destruct (truthy ip); [|reflexivity].
  destruct (reader ip) as [|[c|]]; try reflexivity.
  destruct (truthy c) eqn:E; [exact E|reflexivity].
Qed.

End ClientContext.

(** X1: when x-forwarded-for is a non-empty string, the client address is
    the text before its first comma, trimmed; the entries after the comma
    and the peer address play no part. *)
Theorem forwarded_for_leftmost_entry (req : request) (a tail : string) :
  occurs "," a = false ->
  tail = "" \/ (exists r, tail = String "," r) ->
  x_forwarded_for req = Some (a ++ tail) ->
  a ++ tail <> "" ->
  getClientIp req = JsString.trim a.
Proof.
  intros Ha Ht Hx Hne. rewrite (getClientIp_forwarded req _ Hx Hne).
  destruct Ht as [->|(r & ->)].
  - replace (a ++ "") with a
      by (clear; induction a as [|c a IH]; [reflexivity|];
          change (String c a ++ "") with (String c (a ++ "")); congruence).
    now rewrite (split_without_separator _ a Ha).
  - now rewrite (split_at_first_separator _ a r Ha).
Qed.

Lemma forwarded_for_leftmost_entry_witness :
  getClientIp {| x_forwarded_for := Some " 198.51.100.4 ,10.0.0.1, 10.0.0.2";
                 user_agent := None;
                 remoteAddress := Some "203.0.113.7";
                 req_body := Some {| camera_id := Id.of_string "cam1";
                                     seconds := Absent |} |}
  = JsString.trim " 198.51.100.4 ".
Proof.
  apply (forwarded_for_leftmost_entry _ " 198.51.100.4 " ",10.0.0.1, 10.0.0.2").
  - reflexivity.
  - right. now eexists.
  - reflexivity.
  - discriminate.
Defined.

(** X2: when the first entry of x-forwarded-for is blank, the client
    address is the empty string, with no fall back on the peer address,
    and the country is the sentinel "ZZ" whatever the reader knows. *)
Theorem blank_forwarded_entry_is_unknown
    (geoReader : option (string -> geo_answer)) (req : request) (x : string) :
  x_forwarded_for req = Some x ->
  x <> "" ->
  JsString.all_ws (hd "" (JsString.split "," x)) = true ->
  getClientIp req = "" /\ getCountry geoReader (getClientIp req) = "ZZ".
Proof.
  intros Hx Hne Hws. rewrite (getClientIp_forwarded req x Hx Hne).
  rewrite (trim_blank _ Hws). split; [reflexivity|].
  unfold getCountry. destruct geoReader; reflexivity.
Qed.

Lemma blank_forwarded_entry_is_unknown_witness :
  getClientIp {| x_forwarded_for := Some " , 198.51.100.4";
                 user_agent := None;
                 remoteAddress := Some "203.0.113.7";
                 req_body := Some {| camera_id := Id.of_string "cam1";
                                     seconds := Absent |} |} = ""
  /\ getCountry (Some (fun _ => IsoCode (Some "NL")))
       (getClientIp {| x_forwarded_for := Some " , 198.51.100.4";
                       user_agent := None;
                       remoteAddress := Some "203.0.113.7";
                       req_body := Some {| camera_id := Id.of_string "cam1";
                                           seconds := Absent |} |}) = "ZZ".
Proof.
  apply (blank_forwarded_entry_is_unknown (Some (fun _ => IsoCode (Some "NL")))
           _ " , 198.51.100.4").
  - reflexivity.
  - discriminate.
  - reflexivity.
Defined.

(** X3: [getCountry] never yields an empty label: it yields "ZZ" or the
    non-empty code the reader answered for that address; it yields "ZZ"
    without a reader, for an empty address and when the reader throws. *)
Theorem country_is_a_code_or_the_sentinel
    (geoReader : option (string -> geo_answer)) (ip : string) :
  JsString.truthy (getCountry geoReader ip) = true
  /\ (getCountry geoReader ip = "ZZ"
      \/ exists reader,
           geoReader = Some reader
           /\ JsString.truthy ip = true
           /\ reader ip = IsoCode (Some (getCountry geoReader ip)))
  /\ getCountry None ip = "ZZ"
  /\ getCountry geoReader "" = "ZZ"
  /\ getCountry (Some (fun _ => Throws)) ip = "ZZ".
Proof.
  split; [apply getCountry_nonempty|]. split.
  - unfold getCountry. destruct geoReader as [reader|]; [|now left].
    destruct (JsString.truthy ip) eqn:Hip; [|now left].
    destruct (reader ip) as [|[c|]] eqn:E; try now left.
    destruct (JsString.truthy c); [|now left].
    right. exists reader. repeat split; assumption.
  - split; [reflexivity|]. split.
    + unfold getCountry. destruct geoReader; reflexivity.
    + unfold getCountry. destruct (JsString.truthy ip); reflexivity.
Qed.

(** ** Sequences of telemetry calls *)

Section Sequences.
Import JsString.
Variable UAParser : option string -> option string * option string.
Variable geoReader : option (string -> geo_answer).

(** The three ways a call ends. *)
Lemma serve_cases (c : call) (m : metrics) :
  (fst (serve UAParser geoReader c m) = no_content)
  \/ (serve UAParser geoReader c m = (camera_id_required, m))
  \/ (serve UAParser geoReader c m = (uncaught, m)).
Proof.
  destruct c as [r|r|r]; cbn [serve]; unfold view_start, heartbeat, view_end;
    (destruct (req_body r) as [b|]; [|now right; right]);
    (destruct (is_truthy (camera_id b)); [|now right; left]).
  - destruct (parseUA UAParser r).
    destruct (as_label (camera_id b)); [now left|now right; right].
  - destruct (as_label (camera_id b)); [|now right; right].
    destruct (Prom.inc_by _ _ _); [now left|now right; right].
  - destruct (as_label (camera_id b)); [now left|now right; right].
Qed.

Lemma serve_start_counter (c : call) (m : metrics)
    (k : string * string * string * string) :
  Prom.read (viewStartCounter (snd (serve UAParser geoReader c m))) k
  = Prom.read (viewStartCounter m) k + count_starts UAParser geoReader k [c].
Proof.
  destruct c as [r|r|r]; cbn [serve count_starts start_series].
  - destruct (req_body r) as [b|] eqn:Hb;
      [|unfold view_start; rewrite Hb; cbn [snd]; lia].
    destruct (is_truthy (camera_id b)) eqn:Ht;
      [|unfold view_start; rewrite Hb, Ht; cbn [snd]; lia].
    destruct (as_label (camera_id b)) as [cid|] eqn:Hl.
    + rewrite (view_start_accepted UAParser geoReader r b cid m Hb Ht Hl).
      cbn [snd viewStartCounter]. case_decide as Hk.
      * subst k. rewrite read_inc. lia.
      * rewrite read_inc_other by exact Hk. lia.
    + unfold view_start. rewrite Hb, Ht, Hl.
      destruct (parseUA UAParser r). cbn [snd]. lia.
  - rewrite heartbeat_keeps_starts. lia.
  - rewrite view_end_keeps_starts. lia.
Qed.

Lemma count_starts_cons k (c : call) (cs : list call) :
  count_starts UAParser geoReader k (c :: cs)
  = count_starts UAParser geoReader k [c] + count_starts UAParser geoReader k cs.
Proof. cbn [count_starts]. lia. Qed.

Lemma count_starts_nonneg k (cs : list call) :
  0 <= count_starts UAParser geoReader k cs.
Proof.
  induction cs as [|c cs IH]; [reflexivity|]. cbn [count_starts].
  destruct (start_series UAParser geoReader c) as [k'|]; [case_decide|]; lia.
Qed.

Lemma run_start_counter (cs : list call) (m : metrics) k :
  Prom.read (viewStartCounter (run UAParser geoReader cs m)) k
  = Prom.read (viewStartCounter m) k + count_starts UAParser geoReader k cs.
Proof.
  revert m. induction cs as [|c cs IH]; intros m.
  - cbn. lia.
  - cbn [run]. rewrite IH, serve_start_counter, (count_starts_cons k c cs). lia.
Qed.

(** What one call does to one series of the seconds counter. *)
Lemma serve_seconds (c : call) (m : metrics) (k : string * string) :
  viewSecondsCounter (snd (serve UAParser geoReader c m)) !! k
  = added (viewSecondsCounter m !! k) (accepted_seconds geoReader k [c]).
Proof.
  destruct c as [r|r|r]; cbn [serve accepted_seconds heartbeat_addend added].
  - unfold view_start. destruct (req_body r) as [b|]; [|reflexivity].
    destruct (is_truthy (camera_id b)); [|reflexivity].
    destruct (parseUA UAParser r).
    destruct (as_label (camera_id b)); reflexivity.
  - unfold heartbeat, Prom.inc_by.
    destruct (req_body r) as [b|]; [|reflexivity].
    destruct (is_truthy (camera_id b)); [|reflexivity].
    destruct (as_label (camera_id b)) as [cid|]; [|reflexivity].
    destruct (Prom.checked _) as [a|]; [|reflexivity].
    cbn [snd viewSecondsCounter]. case_decide as Hk.
    + subst k. cbn [added]. now rewrite lookup_insert_eq.
    + cbn [added]. now rewrite lookup_insert_ne.
  - unfold view_end. destruct (req_body r) as [b|]; [|reflexivity].
    destruct (is_truthy (camera_id b)); [|reflexivity].
    destruct (as_label (camera_id b)); reflexivity.
Qed.

Lemma accepted_seconds_cons (k : string * string) (c : call) (cs : list call) :
  accepted_seconds geoReader k (c :: cs)
  = (accepted_seconds geoReader k [c] ++ accepted_seconds geoReader k cs)%list.
Proof.
  cbn [accepted_seconds].
  destruct (heartbeat_addend geoReader c) as [[[cid country] a]|]; [|reflexivity].
  case_decide; reflexivity.
Qed.

Lemma added_app (cur : option cell) (l l' : list Prom.addend) :
  added cur (l ++ l')%list = added (added cur l) l'.
Proof. revert cur. induction l as [|a l IH]; intros cur; [reflexivity|apply IH]. Qed.

Lemma run_seconds (cs : list call) (m : metrics) (k : string * string) :
  viewSecondsCounter (run UAParser geoReader cs m) !! k
  = added (viewSecondsCounter m !! k) (accepted_seconds geoReader k cs).
Proof.
  revert m. induction cs as [|c cs IH]; intros m; [reflexivity|].
  cbn [run]. rewrite IH, serve_seconds, (accepted_seconds_cons k c cs).
  now rewrite added_app.
Qed.

(** Series are only ever added. *)
Lemma serve_series (c : call) (m : metrics) :
  dom (viewStartCounter m) ⊆ dom (viewStartCounter (snd (serve UAParser geoReader c m)))
  /\ dom (viewersGauge m) ⊆ dom (viewersGauge (snd (serve UAParser geoReader c m)))
  /\ dom (viewSecondsCounter m)
     ⊆ dom (viewSecondsCounter (snd (serve UAParser geoReader c m))).
Proof.
  destruct c as [r|r|r]; cbn [serve]; unfold view_start, heartbeat, view_end;
    (destruct (req_body r) as [b|]; [|done]);
    (destruct (is_truthy (camera_id b)); [|done]).
  - destruct (parseUA UAParser r).
    destruct (as_label (camera_id b)) as [cid|]; [|done].
    cbn. unfold Prom.inc. rewrite !dom_insert_L. set_solver.
  - destruct (as_label (camera_id b)) as [cid|]; [|done].
    destruct (Prom.inc_by _ _ _) as [s|] eqn:E; [|done].
    apply inc_by_insert in E as (q & ->). cbn.
    rewrite dom_insert_L. set_solver.
  - destruct (as_label (camera_id b)) as [cid|]; [|done].
    cbn. unfold Prom.dec. rewrite dom_insert_L. set_solver.
Qed.

(** Labels: what holds of the labels of a call holds of the series it
    creates. *)
Lemma serve_labels (P : string -> string -> Prop) (c : call) (m : metrics) :
  (forall b cid, req_body (request_of c) = Some b ->
                 is_truthy (camera_id b) = true ->
                 as_label (camera_id b) = Some cid ->
                 P cid (getCountry geoReader (getClientIp (request_of c)))) ->
  labels_satisfy P m -> labels_satisfy P (snd (serve UAParser geoReader c m)).
Proof.
  intros HP (H1 & H2 & H3).
  destruct c as [r|r|r]; cbn [serve request_of] in *;
    unfold view_start, heartbeat, view_end;
    (destruct (req_body r) as [b|]; [|now repeat split]);
    (destruct (is_truthy (camera_id b)) eqn:Ht; [|now repeat split]);
    (destruct (as_label (camera_id b)) as [cid|] eqn:Hl;
     [|try destruct (parseUA UAParser r); now repeat split]);
    specialize (HP b cid eq_refl Ht Hl).
  - destruct (parseUA UAParser r) as [br o]. cbn [snd]. unfold Prom.inc.
    split; [|split]; cbn; [intros cid' co' b' o'|intros cid' co'|exact H3];
      rewrite lookup_insert; case_decide as Hk; try (apply H1 || apply H2);
      intros _; injection Hk as <- <-; exact HP.
  - destruct (Prom.inc_by _ _ _) as [s|] eqn:E; [|now repeat split].
    cbn [snd]. split; [exact H1|]. split; [exact H2|]. cbn.
    intros cid' co'. apply inc_by_insert in E as (q & ->).
    rewrite lookup_insert. case_decide as Hk; [|apply H3].
    intros _. injection Hk as <- <-. exact HP.
  - cbn [snd]. unfold Prom.dec. split; [exact H1|]. split; [|exact H3]. cbn.
    intros cid' co'. rewrite lookup_insert. case_decide as Hk; [|apply H2].
    intros _. injection Hk as <- <-. exact HP.
Qed.

Lemma run_labels (P : string -> string -> Prop) (cs : list call) (m : metrics) :
  Forall (fun c =>
            forall b cid, req_body (request_of c) = Some b ->
                          is_truthy (camera_id b) = true ->
                          as_label (camera_id b) = Some cid ->
                          P cid (getCountry geoReader (getClientIp (request_of c))))
    cs ->
  labels_satisfy P m -> labels_satisfy P (run UAParser geoReader cs m).
Proof.
  intros HP. revert m. induction HP as [|c cs Hc _ IH]; intros m Hm; [exact Hm|].
  cbn [run]. apply IH. now apply serve_labels.
Qed.

Lemma no_metrics_labels (P : string -> string -> Prop) : labels_satisfy P no_metrics.
Proof.
  repeat split; intros; cbn in *;
    match goal with H : is_Some (∅ !! _) |- _ =>
      destruct H as [v Hv]; now rewrite lookup_empty in Hv end.
Qed.

End Sequences.

(** ** The catalog handlers: errors and bindings *)

Section Catalog.
Import JsString JsNumber CameraList.

Lemma bbox_clause_some (bbox : option string) acc :
  bbox_clause bbox = Some acc ->
  (truthy_opt bbox = false /\ acc = ([], []))
  \/ (exists b n1 n2 n3 n4,
         bbox = Some b /\ truthy b = true
         /\ parts_of b = [n1; n2; n3; n4]
         /\ existsb isNaN [n1; n2; n3; n4] = false
         /\ acc = ([Sql.Float n1; Sql.Float n2; Sql.Float n3; Sql.Float n4],
                   [Sql.ST_Contains_Envelope 1 2 3 4])).
Proof.
  unfold bbox_clause. destruct bbox as [b|]; [|intros [= <-]; now left].
  cbn [truthy_opt]. destruct (truthy b) eqn:Ht; [|intros [= <-]; now left].
  cbv zeta. destruct (negb _ || existsb isNaN (parts_of b)) eqn:E; [discriminate|].
  apply orb_false_iff in E as [_ Hn].
  destruct (parts_of b) as [|n1 [|n2 [|n3 [|n4 [|n5 l]]]]] eqn:Hp; try discriminate.
  intros [= <-]. right. exists b, n1, n2, n3, n4. repeat split; assumption.
Qed.

Lemma bbox_clause_none (bbox : option string) :
  bbox_clause bbox = None ->
  exists b, bbox = Some b /\ truthy b = true
            /\ (List.length (parts_of b) <> 4%nat
                \/ existsb isNaN (parts_of b) = true).
Proof.
  unfold bbox_clause. destruct bbox as [b|]; [|discriminate].
  destruct (truthy b) eqn:Ht; [|discriminate]. cbv zeta.
  destruct (negb (List.length (parts_of b) =? 4)%nat) eqn:El.
  - intros _. exists b. repeat split; [assumption|left].
    apply negb_true_iff, Nat.eqb_neq in El. exact El.
  - destruct (existsb isNaN (parts_of b)) eqn:En.
    + intros _. exists b. repeat split; [assumption|now right].
    + cbn [orb]. apply negb_false_iff, Nat.eqb_eq in El.
      destruct (parts_of b) as [|n1 [|n2 [|n3 [|n4 [|n5 l]]]]]; discriminate.
Qed.

(** The handler, by the outcome of the [if (bbox)] block. *)
Lemma handler_cases (db : Store) (bbox role : option string) :
  (bbox_clause bbox = None /\ handler db bbox role = (bad_bbox, []))
  \/ (exists acc rows,
         bbox_clause bbox = Some acc
         /\ handler db bbox role
            = (ok rows,
               [listing (snd (role_clause role acc)) (fst (role_clause role acc))]))
  \/ (exists acc,
         bbox_clause bbox = Some acc
         /\ handler db bbox role
            = (internal_error,
               [listing (snd (role_clause role acc)) (fst (role_clause role acc))])).
Proof.
  unfold handler. destruct (bbox_clause bbox) as [acc|]; [|now left].
  right. destruct (role_clause role acc) as [ps ws] eqn:E.
  destruct (pool_query db _) as [rows|];
    [left; exists acc, rows|right; exists acc]; rewrite E; now split.
Qed.

Lemma nan_part_iff (b : string) :
  existsb isNaN (parts_of b) = true
  <-> exists p, In p (split "," b) /\ Number p = NaN.
Proof.
  unfold parts_of. rewrite existsb_exists. split.
  - intros (n & Hin & Hn). apply in_map_iff in Hin as (p & <- & Hp).
    exists p. split; [exact Hp|]. destruct (Number p); try discriminate. reflexivity.
  - intros (p & Hp & Hn). exists (Number p). split; [now apply in_map|].
    now rewrite Hn.
Qed.

Lemma role_clause_cases (role : option string) ps ws :
  (truthy_opt role = false /\ role_clause role (ps, ws) = (ps, ws))
  \/ (exists r, role = Some r /\ truthy r = true
                /\ role_clause role (ps, ws)
                   = ((ps ++ [Sql.Text r])%list,
                      (ws ++ [Sql.Column_eq "role"
                                (List.length (ps ++ [Sql.Text r])%list)])%list)).
Proof.
  destruct role as [r|]; [|now left]. cbn. destruct (truthy r) eqn:E; [|now left].
  right. now exists r.
Qed.

End Catalog.

(** X9: the lookup by id sends one statement; it answers the internal
    error exactly when the store does not answer, 404 exactly when the
    store answers and no camera has that id, and a row it returns is the
    row of a camera of the catalog with the requested id. *)
Theorem lookup_outcomes (db : Store) (id : string) :
  (fst (CameraById.handler db id) = internal_error <-> reachable db = false)
  /\ (fst (CameraById.handler db id) = CameraById.not_found
      <-> reachable db = true /\ forall c, In c (cameras db) -> Camera.id c <> id)
  /\ (forall r,
         fst (CameraById.handler db id) = {| status := 200; body := Row r |} ->
         exists c, In c (cameras db) /\ Camera.id c = id /\ r = Rows.detail c)
  /\ List.length (snd (CameraById.handler db id)) = 1%nat.
Proof.
  unfold CameraById.handler. destruct (reachable db) eqn:Hr.
  - rewrite (by_id_rows db id Hr).
    destruct (List.filter _ (cameras db)) as [|c l] eqn:Hf; cbn [map fst snd].
    + split; [split; discriminate|]. split; [|split; [discriminate|reflexivity]].
      split; [|reflexivity]. intros _. split; [reflexivity|].
      intros c Hc E.
      assert (Hin : In c (List.filter
                            (fun x => String.eqb (Camera.id x) id && true)
                            (cameras db))).
      { apply filter_In. split; [exact Hc|]. rewrite E, String.eqb_refl. reflexivity. }
      rewrite Hf in Hin. destruct Hin.
    + assert (Hc : In c (cameras db) /\ Camera.id c = id).
      { assert (Hin : In c (List.filter
                              (fun x => String.eqb (Camera.id x) id && true)
                              (cameras db))) by (rewrite Hf; now left).
        apply filter_In in Hin as [Hin He]. split; [exact Hin|].
        apply andb_true_iff in He as [He _]. now apply String.eqb_eq. }
      split; [split; discriminate|]. split; [|split; [|reflexivity]].
      * split; [discriminate|]. intros [_ H]. destruct Hc as [Hin He].
        destruct (H c Hin He).
      * intros r [= <-]. exists c. destruct Hc. repeat split; assumption.
  - unfold pool_query. rewrite Hr. cbn [fst snd].
    split; [split; reflexivity|]. split; [|split; [discriminate|reflexivity]].
    split; [discriminate|]. intros [H _]. discriminate H.
Qed.

(** X10: for a bbox and a role that are each absent or one string, the
    list form answers the caller error exactly for a non-empty bbox with a
    component count other than four or a component that is NaN; a caller
    error is answered without a statement sent, and no request sends more
    than one statement. *)
Theorem caller_error_only_for_malformed_bbox (db : Store) (bbox role : option string) :
  (fst (CameraList.handler db bbox role) = CameraList.bad_bbox
   <-> exists b,
         bbox = Some b /\ JsString.truthy b = true
         /\ (List.length (JsString.split "," b) <> 4%nat
             \/ exists p, In p (JsString.split "," b) /\ JsNumber.Number p = NaN))
  /\ (fst (CameraList.handler db bbox role) = CameraList.bad_bbox
      -> snd (CameraList.handler db bbox role) = [])
  /\ (List.length (snd (CameraList.handler db bbox role)) <= 1)%nat.
Proof.
  destruct (handler_cases db bbox role)
    as [[Hn ->]|[(acc & rows & Hs & ->)|(acc & Hs & ->)]]; cbn [fst snd List.length].
  - split; [|split; [tauto|lia]]. split; [intros _|reflexivity].
    destruct (bbox_clause_none bbox Hn) as (b & -> & Ht & H).
    exists b. repeat split; [exact Ht|].
    destruct H as [H|H]; [left|right; now apply nan_part_iff].
    unfold CameraList.parts_of in H. now rewrite length_map in H.
  - split; [|split; [discriminate|lia]]. split; [discriminate|].
    intros (b & -> & Ht & H). exfalso.
    rewrite bbox_clause_rejects in Hs; [discriminate|exact Ht|].
    destruct H as [H|H]; [left|right; now apply nan_part_iff].
    unfold CameraList.parts_of. now rewrite length_map.
  - split; [|split; [discriminate|lia]]. split; [discriminate|].
    intros (b & -> & Ht & H). exfalso.
    rewrite bbox_clause_rejects in Hs; [discriminate|exact Ht|].
    destruct H as [H|H]; [left|right; now apply nan_part_iff].
    unfold CameraList.parts_of. now rewrite length_map.
Qed.

Section Bindings.
Import JsString JsNumber CameraList.

Lemma not_nan_of_existsb (l : list number) (n : number) :
  existsb isNaN l = false -> In n l -> n <> NaN.
Proof.
  intros H Hin ->. assert (existsb isNaN l = true); [|congruence].
  apply existsb_exists. now exists NaN.
Qed.

Lemma ok_needs_no_viewport (db : Store) bbox role rows :
  fst (handler db bbox role) = ok rows ->
  truthy_opt bbox = false /\ reachable db = true.
Proof.
  intros H. destruct (handler_cases db bbox role)
    as [[_ E]|[(acc & rows' & Hs & E)|(acc & _ & E)]];
    rewrite E in H; try discriminate.
  destruct (bbox_clause_some bbox acc Hs)
    as [[Hf ->]|(b & n1 & n2 & n3 & n4 & -> & Ht & Hp & Hn & ->)].
  - split; [exact Hf|]. destruct (reachable db) eqn:Hr; [reflexivity|].
    exfalso. revert E. unfold handler. rewrite (bbox_clause_falsy bbox Hf).
    destruct (role_clause role ([], [])). unfold pool_query. rewrite Hr. discriminate.
  - rewrite (handler_bbox db b role n1 n2 n3 n4 Hp Hn) in E. discriminate.
Qed.

End Bindings.

(** X11: in a statement the list form sends, no parameter is NaN, the only
    comparison is on [role] and its placeholder is bound to the role
    string of the request, and the placeholders of the envelope are bound
    to the four numbers of the bbox, in order. *)
Theorem statements_bind_their_placeholders (db : Store) (bbox role : option string)
    (q : Sql.statement) :
  In q (snd (CameraList.handler db bbox role)) ->
  (forall p, In p (Sql.params q) -> p <> Sql.Float NaN)
  /\ (forall col k,
         In (Sql.Column_eq col k) (Sql.where_ q) ->
         col = "role"
         /\ exists r, role = Some r /\ JsString.truthy r = true
                      /\ Sql.placeholder (Sql.params q) k = Some (Sql.Text r))
  /\ (forall a b c d,
         In (Sql.ST_Contains_Envelope a b c d) (Sql.where_ q) ->
         exists s, bbox = Some s
                   /\ map (Sql.placeholder (Sql.params q)) [a; b; c; d]
                      = map (fun n => Some (Sql.Float n)) (CameraList.parts_of s)).
Proof.
  intros Hq.
  assert (Hacc : exists acc,
             CameraList.bbox_clause bbox = Some acc
             /\ q = CameraList.listing (snd (CameraList.role_clause role acc))
                      (fst (CameraList.role_clause role acc))).
  { destruct (handler_cases db bbox role)
      as [[_ E]|[(acc & rows & Hs & E)|(acc & Hs & E)]];
      rewrite E in Hq; cbn [snd In] in Hq; [destruct Hq|..];
      destruct Hq as [<-|[]]; exists acc; now split. }
  destruct Hacc as (acc & Hs & ->).
  destruct (bbox_clause_some bbox acc Hs)
    as [[Hf ->]|(s & n1 & n2 & n3 & n4 & -> & Ht & Hp & Hn & ->)];
    [destruct (role_clause_cases role [] []) as [[Hr ->]|(r & -> & Hr & ->)]
    |destruct (role_clause_cases role
                 [Sql.Float n1; Sql.Float n2; Sql.Float n3; Sql.Float n4]
                 [Sql.ST_Contains_Envelope 1 2 3 4])
       as [[Hr ->]|(r & -> & Hr & ->)]];
    cbn [fst snd CameraList.listing Sql.params Sql.where_ app List.length].
  - repeat split; intros; match goal with H : In _ [] |- _ => destruct H end.
  - split; [|split].
    + intros p [<-|[]]. discriminate.
    + intros col k [[= <- <-]|[]]. split; [reflexivity|]. exists r. now repeat split.
    + intros a b c d [H|[]]. discriminate H.
  - split; [|split].
    + intros p Hin [= ->].
      assert (Hin' : In NaN [n1; n2; n3; n4]).
      { cbn in Hin |- *. intuition congruence. }
      exact (not_nan_of_existsb _ _ Hn Hin' eq_refl).
    + intros col k [H|[]]. discriminate H.
    + intros a b c d [[= <- <- <- <-]|[]]. exists s. split; [reflexivity|].
      rewrite Hp. reflexivity.
  - split; [|split].
    + intros p Hin [= ->].
      assert (Hin' : In NaN [n1; n2; n3; n4]).
      { cbn in Hin |- *. intuition congruence. }
      exact (not_nan_of_existsb _ _ Hn Hin' eq_refl).
    + intros col k [H|[[= <- <-]|[]]]; [discriminate H|].
      split; [reflexivity|]. exists r. now repeat split.
    + intros a b c d [[= <- <- <- <-]|[H|[]]]; [|discriminate H].
      exists s. split; [reflexivity|]. rewrite Hp. reflexivity.
Qed.

Lemma statements_bind_their_placeholders_witness :
  (forall p,
      In p (Sql.params
              (CameraList.listing
                 [Sql.ST_Contains_Envelope 1 2 3 4; Sql.Column_eq "role" 5]
                 (map Sql.Float (Viewport.numbers Sample.box) ++ [Sql.Text "traffic"]))) ->
      p <> Sql.Float NaN)
  /\ (forall col k,
         In (Sql.Column_eq col k)
            (Sql.where_
               (CameraList.listing
                  [Sql.ST_Contains_Envelope 1 2 3 4; Sql.Column_eq "role" 5]
                  (map Sql.Float (Viewport.numbers Sample.box) ++ [Sql.Text "traffic"]))) ->
         col = "role"
         /\ exists r, Some "traffic" = Some r /\ JsString.truthy r = true
                      /\ Sql.placeholder
                           (Sql.params
                              (CameraList.listing
                                 [Sql.ST_Contains_Envelope 1 2 3 4; Sql.Column_eq "role" 5]
                                 (map Sql.Float (Viewport.numbers Sample.box)
                                  ++ [Sql.Text "traffic"]))) k
                         = Some (Sql.Text r))
  /\ (forall a b c d,
         In (Sql.ST_Contains_Envelope a b c d)
            (Sql.where_
               (CameraList.listing
                  [Sql.ST_Contains_Envelope 1 2 3 4; Sql.Column_eq "role" 5]
                  (map Sql.Float (Viewport.numbers Sample.box) ++ [Sql.Text "traffic"]))) ->
         exists s, Some "0,0,20,30" = Some s
                   /\ map (Sql.placeholder
                             (Sql.params
                                (CameraList.listing
                                   [Sql.ST_Contains_Envelope 1 2 3 4;
                                    Sql.Column_eq "role" 5]
                                   (map Sql.Float (Viewport.numbers Sample.box)
                                    ++ [Sql.Text "traffic"]))))
                        [a; b; c; d]
                      = map (fun n => Some (Sql.Float n)) (CameraList.parts_of s)).
Proof.
  apply (statements_bind_their_placeholders Sample.db (Some "0,0,20,30")
           (Some "traffic")).
  left. reflexivity.
Defined.

(** X12: every row returned under a role filter is the row of a camera of
    the catalog whose role is exactly the requested string. *)
Theorem role_filter_rows_are_sound (db : Store) (bbox : option string) (r : string)
    (rows : list Sql.row) (row : Sql.row) :
  JsString.truthy r = true ->
  fst (CameraList.handler db bbox (Some r)) = ok rows ->
  In row rows ->
  Sql.field "role" row = Some (Sql.Text r)
  /\ exists c, In c (cameras db) /\ row = Rows.summary c /\ Camera.role c = r.
Proof.
  intros Ht H Hin.
  destruct (ok_needs_no_viewport db bbox (Some r) rows H) as [Hb Hr].
  rewrite (handler_role_only db bbox r Hb Ht Hr) in H. cbn [fst] in H.
  injection H as <-. apply in_map_iff in Hin as (c & <- & Hc).
  apply filter_In in Hc as [Hc He]. apply String.eqb_eq in He.
  split; [cbn; now rewrite He|]. exists c. now repeat split.
Qed.

Lemma role_filter_rows_are_sound_witness :
  Sql.field "role" (Rows.summary Sample.cam1) = Some (Sql.Text "traffic")
  /\ exists c, In c (cameras Sample.db_roles)
               /\ Rows.summary Sample.cam1 = Rows.summary c
               /\ Camera.role c = "traffic".
Proof.
  apply (role_filter_rows_are_sound Sample.db_roles None "traffic"
           [Rows.summary Sample.cam1] (Rows.summary Sample.cam1)).
  - reflexivity.
  - reflexivity.
  - now left.
Defined.

(** X13: without a viewport, the list form answers the internal error
    exactly when the store does not answer, and a role that no camera has
    gives the empty list with status 200 (not a not-found). *)
Theorem list_without_viewport_outcomes (db : Store) (bbox role : option string)
    (r : string) :
  JsString.truthy_opt bbox = false ->
  JsString.truthy r = true ->
  (fst (CameraList.handler db bbox role) = internal_error <-> reachable db = false)
  /\ (fst (CameraList.handler db bbox (Some r)) = ok []
      <-> reachable db = true /\ forall c, In c (cameras db) -> Camera.role c <> r).
Proof.
  intros Hb Ht. split.
  - destruct (reachable db) eqn:Hr.
    + split; [|discriminate]. intros H. exfalso.
      destruct (JsString.truthy_opt role) eqn:Hrole.
      * destruct role as [r'|]; [|discriminate]. cbn in Hrole.
        rewrite (handler_role_only db bbox r' Hb Hrole Hr) in H. discriminate.
      * rewrite (handler_unfiltered db bbox role Hb Hrole Hr) in H. discriminate.
    + split; [reflexivity|]. intros _. unfold CameraList.handler.
      rewrite (bbox_clause_falsy bbox Hb).
      destruct (CameraList.role_clause role ([], [])). unfold pool_query.
      now rewrite Hr.
  - split.
    + intros H. destruct (ok_needs_no_viewport db bbox (Some r) [] H) as [_ Hr].
      split; [exact Hr|]. intros c Hc E.
      rewrite (handler_role_only db bbox r Hb Ht Hr) in H. cbn [fst] in H.
      injection H as H.
      assert (Hin : In c (List.filter (fun c0 => String.eqb (Camera.role c0) r)
                            (cameras db))).
      { apply filter_In. split; [exact Hc|]. now apply String.eqb_eq. }
      destruct (List.filter _ (cameras db)); [destruct Hin|discriminate].
    + intros [Hr Hnone]. rewrite (handler_role_only db bbox r Hb Ht Hr). cbn [fst].
      rewrite filter_none; [reflexivity|].
      intros c Hc. apply String.eqb_neq. now apply Hnone.
Qed.

Lemma list_without_viewport_outcomes_witness :
  (fst (CameraList.handler Sample.db (Some "") None) = internal_error
   <-> reachable Sample.db = false)
  /\ (fst (CameraList.handler Sample.db (Some "") (Some "parking")) = ok []
      <-> reachable Sample.db = true
          /\ forall c, In c (cameras Sample.db) -> Camera.role c <> "parking").
Proof.
  apply (list_without_viewport_outcomes Sample.db (Some "") None "parking");
    reflexivity.
Defined.

(** X14: for a bbox of four finite numbers the list form sends one
    statement, which starts with the [ST_Contains] test on the bare [geom]
    column; the schema declares that column a geography, the store refuses
    the statement, and the answer is the internal error, with or without a
    role filter. *)
Theorem viewport_statement_is_refused (db : Store) (b : string)
    (role : option string) (v : Viewport.t) :
  CameraList.parts_of b = Viewport.numbers v ->
  fst (CameraList.handler db (Some b) role) = internal_error
  /\ (exists q, snd (CameraList.handler db (Some b) role) = [q]
                /\ hd_error (Sql.where_ q) = Some (Sql.ST_Contains_Envelope 1 2 3 4)
                /\ Sql.run q (map Sql.table_row (cameras db)) = None)
  /\ Sql.column_type "geom" = Some Sql.GEOGRAPHY.
Proof.
  intros Hp. rewrite (handler_bbox db b role _ _ _ _ Hp eq_refl). cbn [fst snd].
  split; [reflexivity|]. split; [|reflexivity]. eexists. split; [reflexivity|].
  destruct (role_clause_cases role (map Sql.Float (Viewport.numbers v))
              [Sql.ST_Contains_Envelope 1 2 3 4]) as [[_ E]|(r & _ & _ & E)];
    cbn [map Viewport.numbers] in E; rewrite E; split; reflexivity.
Qed.

Lemma viewport_statement_is_refused_witness :
  fst (CameraList.handler Sample.db (Some "0,0,20,30") (Some "traffic"))
  = internal_error
  /\ (exists q,
         snd (CameraList.handler Sample.db (Some "0,0,20,30") (Some "traffic")) = [q]
         /\ hd_error (Sql.where_ q) = Some (Sql.ST_Contains_Envelope 1 2 3 4)
         /\ Sql.run q (map Sql.table_row (cameras Sample.db)) = None)
  /\ Sql.column_type "geom" = Some Sql.GEOGRAPHY.
Proof.
  apply (viewport_statement_is_refused Sample.db "0,0,20,30" (Some "traffic")
           Sample.box).
  reflexivity.
Defined.

(** X15: a browser or OS name of the allow-list is kept as the parser
    reported it, and any other reported name becomes "Other". *)
Theorem allow_listed_names_are_kept
    (UAParser : option string -> option string * option string)
    (req : request) (b o : string) :
  UAParser (user_agent req) = (Some b, Some o) ->
  (In b knownBrowsers -> fst (parseUA UAParser req) = b)
  /\ (~ In b knownBrowsers -> fst (parseUA UAParser req) = "Other")
  /\ (In o knownOS -> snd (parseUA UAParser req) = o)
  /\ (~ In o knownOS -> snd (parseUA UAParser req) = "Other").
Proof.
  intros HU. unfold parseUA. rewrite HU. cbn [fst snd].
  assert (Hknown : forall known s,
             In s known -> ~ In "" known -> ~ In "Other" known ->
             normalise known (Some s) = s).
  { intros known s Hs Hne Ho. unfold normalise.
    destruct (JsString.truthy s) eqn:Ht.
    - assert (E : includes known s = true)
        by (apply existsb_exists; exists s; split;
            [exact Hs|apply String.eqb_refl]).
      now rewrite E.
    - destruct s; [contradiction|discriminate]. }
  assert (Hother : forall known s, ~ In s known -> ~ In "Other" known ->
             normalise known (Some s) = "Other").
  { intros known s Hs Ho. unfold normalise.
    destruct (JsString.truthy s);
      (destruct (includes known _) eqn:E; [|reflexivity]);
      apply existsb_exists in E as (x & Hx & Heq);
      apply String.eqb_eq in Heq; subst x; contradiction. }
  repeat split; intros H.
  - apply Hknown; [exact H|cbn; intuition discriminate..].
  - apply Hother; [exact H|cbn; intuition discriminate].
  - apply Hknown; [exact H|cbn; intuition discriminate..].
  - apply Hother; [exact H|cbn; intuition discriminate].
Qed.

Lemma allow_listed_names_are_kept_witness :
  (In "Firefox" knownBrowsers
   -> fst (parseUA Sample.ua_firefox (Sample.post (Some "cam1") Absent)) = "Firefox")
  /\ (~ In "Firefox" knownBrowsers
      -> fst (parseUA Sample.ua_firefox (Sample.post (Some "cam1") Absent)) = "Other")
  /\ (In "Linux" knownOS
      -> snd (parseUA Sample.ua_firefox (Sample.post (Some "cam1") Absent)) = "Linux")
  /\ (~ In "Linux" knownOS
      -> snd (parseUA Sample.ua_firefox (Sample.post (Some "cam1") Absent)) = "Other").
Proof.
  apply (allow_listed_names_are_kept Sample.ua_firefox
           (Sample.post (Some "cam1") Absent) "Firefox" "Linux").
  reflexivity.
Defined.



(** X16: with the store answering and no viewport, a role filter returns
    the row of a camera of the catalog exactly when the role of that
    camera is the requested string, character for character; with neither
    filter every camera of the catalog is returned, in the order of the
    catalog. *)
Theorem role_filter_selects_exactly (db : Store) (r : string) (c : Camera.t) :
  JsString.truthy r = true ->
  reachable db = true ->
  In c (cameras db) ->
  (exists rows,
      fst (CameraList.handler db None (Some r)) = ok rows
      /\ (In (Rows.summary c) rows <-> Camera.role c = r))
  /\ fst (CameraList.handler db None None) = ok (map Rows.summary (cameras db)).
Proof.
  intros Ht Hr Hc. split.
  - eexists. rewrite (handler_role_only db None r eq_refl Ht Hr). cbn [fst].
    split; [reflexivity|].
    rewrite summary_in_filter; [apply String.eqb_eq| |exact Hc].
    intros c' Heq. apply summary_fields in Heq as (_ & _ & ->). reflexivity.
  - now rewrite (handler_unfiltered db None None eq_refl eq_refl Hr).
Qed.

Lemma role_filter_selects_exactly_witness :
  (exists rows,
      fst (CameraList.handler Sample.db_roles None (Some "traffic")) = ok rows
      /\ (In (Rows.summary Sample.cam3) rows <-> Camera.role Sample.cam3 = "traffic"))
  /\ fst (CameraList.handler Sample.db_roles None None)
     = ok (map Rows.summary (cameras Sample.db_roles)).
Proof.
  apply (role_filter_selects_exactly Sample.db_roles "traffic" Sample.cam3).
  - reflexivity.
  - reflexivity.
  - right. now left.
Defined.

(** X4: a telemetry call that is not answered 204 is answered 400 or 500
    and leaves the three instruments as they were. *)
Theorem refused_call_changes_nothing
    (UAParser : option string -> option string * option string)
    (geoReader : option (string -> geo_answer)) (c : call) (m : metrics) :
  fst (serve UAParser geoReader c m) = no_content
  \/ (snd (serve UAParser geoReader c m) = m
      /\ (fst (serve UAParser geoReader c m) = camera_id_required
          \/ fst (serve UAParser geoReader c m) = uncaught)).
Proof.
  destruct (serve_cases UAParser geoReader c m) as [H|[H|H]];
    [now left|right; rewrite H..]; cbn; auto.
Qed.

(** X5: no sequence of calls removes a series from an instrument. *)
Theorem series_are_never_removed
    (UAParser : option string -> option string * option string)
    (geoReader : option (string -> geo_answer)) (cs : list call) (m : metrics) :
  dom (viewStartCounter m) ⊆ dom (viewStartCounter (run UAParser geoReader cs m))
  /\ dom (viewersGauge m) ⊆ dom (viewersGauge (run UAParser geoReader cs m))
  /\ dom (viewSecondsCounter m)
     ⊆ dom (viewSecondsCounter (run UAParser geoReader cs m)).
Proof.
  revert m. induction cs as [|c cs IH]; intros m; [done|].
  cbn [run]. destruct (serve_series UAParser geoReader c m) as (H1 & H2 & H3).
  destruct (IH (snd (serve UAParser geoReader c m))) as (I1 & I2 & I3).
  repeat split; etrans; eassumption.
Qed.

(** X6: after any sequence of calls, a series of the start counter has
    grown by the number of accepted view-starts that resolve to its label
    tuple; it never decreases. *)
Theorem start_counter_counts_accepted_starts
    (UAParser : option string -> option string * option string)
    (geoReader : option (string -> geo_answer)) (cs : list call) (m : metrics)
    (k : string * string * string * string) :
  Prom.read (viewStartCounter (run UAParser geoReader cs m)) k
  = Prom.read (viewStartCounter m) k + count_starts UAParser geoReader k cs
  /\ Prom.read (viewStartCounter m) k
     <= Prom.read (viewStartCounter (run UAParser geoReader cs m)) k.
Proof.
  rewrite run_start_counter.
  pose proof (count_starts_nonneg UAParser geoReader k cs). split; lia.
Qed.

(** X7: after any sequence of calls, a series of the seconds counter
    holds what it held before with the values of the accepted heartbeats
    on its pair added to it one after the other, in the order of the calls
    and in binary64 arithmetic (10 when the field is omitted, 1 for null,
    the value itself otherwise); view-starts, view-ends, refused calls and
    heartbeats on other pairs add nothing.  Two heartbeats of 2.5 and 0.25
    seconds on a fresh series leave it at 2.75. *)
Theorem seconds_counter_adds_accepted_heartbeats
    (UAParser : option string -> option string * option string)
    (geoReader : option (string -> geo_answer)) (cs : list call) (m : metrics)
    (k : string * string) :
  viewSecondsCounter (run UAParser geoReader cs m) !! k
  = added (viewSecondsCounter m !! k) (accepted_seconds geoReader k cs)
  /\ accepted_seconds None ("cam1", "ZZ")
       [Heartbeat (Sample.post (Some "cam1") (Num 2.5));
        ViewStart (Sample.post (Some "cam1") Absent);
        Heartbeat (Sample.post (Some "cam2") (Num 7));
        Heartbeat (Sample.post (Some "cam1") (Num (-1)));
        Heartbeat (Sample.post None (Num 3));
        Heartbeat (Sample.post (Some "cam1") (Num 0.25))]
     = [Prom.Add 2.5; Prom.Add 0.25]
  /\ added None [Prom.Add 2.5; Prom.Add 0.25] = Some (Numeric 2.75).
Proof.
  split; [apply run_seconds|]. split; reflexivity.
Qed.

(** X8: from the empty registry, every series of every instrument has a
    non-empty country label, which is "ZZ" when there is no geolocation
    reader.  The camera label is the text of the [camera_id] of the call:
    it is not empty when every [camera_id] is a string, but a view-start
    whose [camera_id] is the empty array is accepted and creates a series
    with the empty camera label. *)
Theorem series_country_labels_are_never_empty
    (UAParser : option string -> option string * option string)
    (geoReader : option (string -> geo_answer)) (cs : list call) :
  labels_satisfy (fun _ country => JsString.truthy country = true)
    (run UAParser geoReader cs no_metrics)
  /\ labels_satisfy (fun _ country => country = "ZZ")
       (run UAParser None cs no_metrics)
  /\ (Forall string_id cs ->
      labels_satisfy (fun cid _ => JsString.truthy cid = true)
        (run UAParser geoReader cs no_metrics))
  /\ view_start UAParser None (Sample.post_id (Id.of_strings []) Absent) no_metrics
     = (no_content,
        {| viewStartCounter :=
             {[ ("", "ZZ",
                 fst (parseUA UAParser (Sample.post_id (Id.of_strings []) Absent)),
                 snd (parseUA UAParser (Sample.post_id (Id.of_strings []) Absent)))
                := 1 ]};
           viewersGauge := {[ ("", "ZZ") := 1 ]};
           viewSecondsCounter := ∅ |}).
Proof.
  split; [|split; [|split]].
  - apply run_labels; [|apply no_metrics_labels].
    apply Forall_forall. intros c _ b cid _ _ _. apply getCountry_nonempty.
  - apply run_labels; [|apply no_metrics_labels].
    apply Forall_forall. intros c _ b cid _ _ _. reflexivity.
  - intros Hs. apply run_labels; [|apply no_metrics_labels].
    eapply Forall_impl; [exact Hs|]. intros c Hc b cid Hb Ht Hl.
    destruct (Hc b Hb) as (s & E). rewrite E in Ht, Hl.
    injection Hl as <-. exact Ht.
  - rewrite (view_start_accepted UAParser None
               (Sample.post_id (Id.of_strings []) Absent)
               {| camera_id := Id.of_strings []; seconds := Absent |} ""
               no_metrics eq_refl eq_refl eq_refl).
    reflexivity.
Qed.
